(** * truffle-codec: decoding of elementary values (lib/decode/value.ts)

    A shallow embedding of [decodeValue], [decodeContract],
    [decodeExternalFunction], [decodeInternalFunction] and the three padding
    checks, followed by the properties of the decoder that are proved about
    them. *)

From Stdlib Require Import ZArith Strings.Byte Lia.
From stdpp Require Import base gmap strings list.

Local Open Scope Z_scope.

(** ** JavaScript arrays: [slice] *)

(** The arguments of [Array.prototype.slice] after [ToIntegerOrInfinity]: an
    integer (a fractional number is truncated towards zero, and [-0] is [0])
    or one of the two infinities. *)
Inductive Index : Type :=
| Finite (z : Z)
| PosInfinity
| NegInfinity.

Coercion Finite : Z >-> Index.

(** Unary minus of a JavaScript number, on indices. *)
Definition neg (i : Index) : Index :=
  match i with
  | Finite z => Finite (- z)
  | PosInfinity => NegInfinity
  | NegInfinity => PosInfinity
  end.

(** A relative index clamped into [0 .. len]: negative indices count from the
    end of the array. *)
Definition relativeIndex (len : Z) (i : Index) : Z :=
  match i with
  | NegInfinity => 0
  | PosInfinity => len
  | Finite z => if z <? 0 then Z.max (len + z) 0 else Z.min z len
  end.

(** [arr.slice(start, end)]; [end_ = None] is a call with one argument. *)
Definition slice {A : Type} (arr : list A) (start : Index) (end_ : option Index)
  : list A :=
  let len := Z.of_nat (length arr) in
  let k := relativeIndex len start in
  let final :=
    match end_ with
    | None => len
    | Some e => relativeIndex len e
    end in
  take (Z.to_nat (final - k)) (drop (Z.to_nat k) arr).

(** ** Numbers *)

(** Modelled from the spec: [CodecUtils.Conversion.toBN] lives in
    truffle-codec-utils; the spec calls it the numeric of the bytes, parsed
    unsigned, and the bytes of an EVM word are big-endian. A [BN] is an
    integer of arbitrary size. *)
Definition toBN (bytes : list byte) : Z :=
  fold_left (fun acc b => acc * 256 + Z.of_N (Byte.to_N b)) bytes 0.

(** The types this file only passes along: they are declared in
    lib/types and in truffle-codec-utils. [GenericError] is the [error] field
    of what [read] throws. *)
Class Carriers : Type := {
  DataPointer : Type;
  EvmState : Type;
  ReadRequest : Type;
  GenericError : Type;
  TypesById : Type
}.

(** What can be thrown while a decoder runs. [DecodingError] is what [read]
    throws, [AssertionError] is bn.js refusing [toNumber], [TypeError] is a
    property read off [undefined], [RangeError] is the engine refusing a call
    with too many arguments. *)
Inductive Exn `{Carriers} : Type :=
| StopDecodingError
| DecodingError (error : GenericError)
| TypeError
| AssertionError
| RangeError.

(** [error.error] of a caught exception: [undefined] unless it is a
    [DecodingError]. *)
Definition errorField `{Carriers} (e : Exn) : option GenericError :=
  match e with
  | DecodingError error => Some error
  | _ => None
  end.

(** The way a call ends: [return] or [throw]. *)
Inductive Completion `{Carriers} (R : Type) : Type :=
| Returned (r : R)
| Threw (e : Exn).

Arguments Returned {_ R} r.
Arguments Threw {_ R} e.

(** [BN.prototype.toNumber] of bn.js: numbers of more than 53 bits are
    refused with an assertion failure. *)
Definition toNumber `{Carriers} (n : Z) : Completion Z :=
  if n <? 2 ^ 53 then Returned n else Threw AssertionError.

(** ** Generators *)

(** The requests a decoder yields to its caller: those of [read], and the
    request for the code of an address made by [decodeContract]. *)
Inductive DecoderRequest `{Carriers} : Type :=
| ReadRequested (request : ReadRequest)
| CodeRequest (address : string).

(** A generator function's body: it returns, throws, or yields a request and
    goes on with the bytes it is resumed with. *)
Inductive Generator `{Carriers} (R : Type) : Type :=
| Return (r : R)
| Throw (e : Exn)
| Yield (request : DecoderRequest) (resume : list byte -> Generator R).

Arguments Return {_ R} r.
Arguments Throw {_ R} e.
Arguments Yield {_ R} request resume.

(** [try { x = yield* g } catch (error) { handler }; body]: only what [g]
    throws is caught. *)
Fixpoint tryBind `{Carriers} {A R : Type} (g : Generator A)
    (body : A -> Generator R) (handler : Exn -> Generator R) : Generator R :=
  match g with
  | Return a => body a
  | Throw e => handler e
  | Yield request resume =>
      Yield request (fun response => tryBind (resume response) body handler)
  end.

(** [x = yield* g; body] *)
Definition bind `{Carriers} {A R : Type} (g : Generator A)
    (body : A -> Generator R) : Generator R :=
  tryBind g body Throw.

(** [return f(...)] of a function that is not a generator. *)
Definition complete `{Carriers} {R : Type} (c : Completion R) : Generator R :=
  match c with
  | Returned r => Return r
  | Threw e => Throw e
  end.

Declare Scope gen_scope.
Delimit Scope gen_scope with gen.
Notation "x '<-yield*' g ';;' body" := (bind g (fun x => body))
  (at level 100, g at next level, right associativity) : gen_scope.
Notation "x '<-yield' request ';;' body" := (Yield request (fun x => body))
  (at level 100, request at next level, right associativity) : gen_scope.
Notation "x '<-try-yield*' g 'catch' e '=>' handler ';;' body" :=
  (tryBind g (fun x => body) (fun e => handler))
  (at level 100, g at next level, handler at next level, right associativity)
  : gen_scope.

(** The caller that pumps a generator: it answers each request and may keep
    a state of its own. *)
Record Driver `{Carriers} : Type := {
  DriverState : Type;
  respond : DriverState -> DecoderRequest -> list byte * DriverState
}.

(** Running a generator to its end against a driver. *)
Fixpoint run `{Carriers} {R : Type} (d : Driver) (s : DriverState d)
    (g : Generator R) : Completion R * DriverState d :=
  match g with
  | Return r => (Returned r, s)
  | Throw e => (Threw e, s)
  | Yield request resume =>
      let (response, s') := respond d s request in run d s' (resume response)
  end.

(** ** Types (truffle-codec-utils, [Types]) *)

Module Types.

Inductive ContractKind : Type := contract | library | interface.

(** [{typeClass: "contract", id, typeName, contractKind, payable}] *)
Record ContractType : Type := {
  id : option Z;
  typeName : option string;
  contractKind : option ContractKind;
  payable : option bool
}.

(** An enum type; [options] is absent until the type has been resolved
    against the user-defined types. *)
Record EnumType : Type := {
  enumId : Z;
  enumName : string;
  options : option (list string)
}.

Inductive Visibility : Type := external | internal.

(** [kind] and [length] of a bytes type. *)
Inductive BytesKind : Type := static (length : Z) | dynamic.

(** The type classes [decodeValue] dispatches on. *)
Inductive Type_ : Type :=
| bool_
| uint (bits : Z)
| int (bits : Z)
| address
| contract_ (type : ContractType)
| bytes (kind : BytesKind)
| string_
| function (visibility : Visibility)
| enum (type : EnumType)
| fixed (bits places : Z)
| ufixed (bits places : Z).

End Types.

(** ** The EVM info (lib/types/evm, truffle-codec-utils [Contexts]) *)

Inductive DecoderMode : Type := normal | permissive | strictMode.

Definition DecoderMode_eqb (a b : DecoderMode) : bool :=
  match a, b with
  | normal, normal | permissive, permissive | strictMode, strictMode => true
  | _, _ => false
  end.

Module AbiEntry.
Record t : Type := { name : string }.
End AbiEntry.

Module DecoderContext.
Record t : Type := {
  contractName : option string;
  contractId : option Z;
  contractKind : option Types.ContractKind;
  payable : option bool;
  isConstructor : bool;
  abi : option (gmap string AbiEntry.t)
}.
End DecoderContext.

Module FunctionEntry.
Record t : Type := {
  name : string;
  contractId : option Z;
  contractName : option string;
  contractKind : option Types.ContractKind;
  contractPayable : option bool;
  isDesignatedInvalid : bool
}.
End FunctionEntry.

Module EvmInfo.
(** [contexts] is an object keyed by context hash; [Object.values] lists it
    in insertion order, so it is kept as an association list.
    [internalFunctionsTable] is an object keyed by program counter, or
    absent. *)
Record t `{Carriers} : Type := {
  state : EvmState;
  contexts : list (string * DecoderContext.t);
  userDefinedTypes : TypesById;
  internalFunctionsTable : option (gmap Z FunctionEntry.t);
  currentContext : DecoderContext.t
}.
End EvmInfo.

(** ** Values and errors (truffle-codec-utils, [Values]) *)

Module Values.

Inductive ContractValueInfo : Type :=
| ContractValueInfoKnown (address : string) (class : Types.ContractType)
| ContractValueInfoUnknown (address : string).

Inductive FunctionExternalValueInfo : Type :=
| FunctionExternalValueInfoKnown (contract : ContractValueInfo)
    (selector : string) (name : string)
| FunctionExternalValueInfoInvalid (contract : ContractValueInfo)
    (selector : string)
| FunctionExternalValueInfoUnknown (contract : ContractValueInfo)
    (selector : string).

Inductive FunctionInternalValueInfo : Type :=
| FunctionInternalValueInfoKnown (context : Types.ContractType)
    (deployedProgramCounter constructorProgramCounter : Z)
    (name : string) (definedIn : Types.ContractType)
| FunctionInternalValueInfoException (context : Types.ContractType)
    (deployedProgramCounter constructorProgramCounter : Z)
| FunctionInternalValueInfoUnknown (context : Types.ContractType)
    (deployedProgramCounter constructorProgramCounter : Z).

(** The errors an error result carries. *)
Inductive DecoderError : Type :=
| BoolPaddingError (raw : string)
| BoolOutOfRangeError (rawAsNumber : Z)
| UintPaddingError (raw : string)
| IntPaddingError (raw : string)
| AddressPaddingError (raw : string)
| ContractPaddingError (raw : string)
| BytesPaddingError (raw : string)
| FunctionExternalNonStackPaddingError (raw : string)
| FunctionInternalPaddingError (raw : string)
| EnumNotFoundDecodingError (type : Types.EnumType) (raw : Z)
| EnumPaddingError (type : Types.EnumType) (raw : string)
| EnumOutOfRangeError (type : Types.EnumType) (raw : Z)
| FixedPointNotYetSupportedError (raw : string)
| MalformedInternalFunctionError (context : Types.ContractType)
    (constructorProgramCounter : Z)
| DeployedFunctionInConstructorError (context : Types.ContractType)
    (deployedProgramCounter : Z)
| NoSuchInternalFunctionError (context : Types.ContractType)
    (deployedProgramCounter constructorProgramCounter : Z).

(** A JavaScript string as its UTF-16 code units. *)
Definition CodeUnits : Type := list N.

(** One value and one error result per type class; [GenericErrorResult]
    is what [makeGenericErrorResult] builds from the error of a failed
    read ([None] when the caught exception has no [error] field). *)
Inductive Result `{Carriers} : Type :=
| GenericErrorResult (type : Types.Type_) (error : option GenericError)
| BoolValue (type : Types.Type_) (value : bool)
| BoolErrorResult (type : Types.Type_) (error : DecoderError)
| UintValue (type : Types.Type_) (value : Z)
| UintErrorResult (type : Types.Type_) (error : DecoderError)
| IntValue (type : Types.Type_) (value : Z)
| IntErrorResult (type : Types.Type_) (error : DecoderError)
| AddressValue (type : Types.Type_) (value : string)
| AddressErrorResult (type : Types.Type_) (error : DecoderError)
| ContractValue (type : Types.ContractType) (value : ContractValueInfo)
| ContractErrorResult (type : Types.Type_) (error : DecoderError)
| BytesValue (type : Types.Type_) (value : string)
| BytesErrorResult (type : Types.Type_) (error : DecoderError)
| StringValue (type : Types.Type_) (value : CodeUnits)
| FunctionExternalValue (type : Types.Type_)
    (value : FunctionExternalValueInfo)
| FunctionExternalErrorResult (type : Types.Type_) (error : DecoderError)
| FunctionInternalValue (type : Types.Type_)
    (value : FunctionInternalValueInfo)
| FunctionInternalErrorResult (type : Types.Type_) (error : DecoderError)
| EnumValue (type : Types.EnumType) (numeric : Z) (name : option string)
| EnumErrorResult (type : Types.EnumType) (error : DecoderError)
| FixedErrorResult (type : Types.Type_) (error : DecoderError)
| UfixedErrorResult (type : Types.Type_) (error : DecoderError).

End Values.

(** ** Collaborators *)

(** What value.ts imports and this file does not define: [read] (lib/read),
    and from truffle-codec-utils the conversions [toHexString], [toAddress]
    and [toSignedBN], the sizes of [EVM], [Types.fullType] at the two
    type classes where its result is cast, and [findDecoderContext] and
    [contextToType] of [Contexts]. With them comes the JavaScript engine that
    runs the decoder: [argumentsLimit] is the greatest number of arguments
    that it accepts in one call. *)
Class Collaborators `{Carriers} : Type := {
  read : DataPointer -> EvmState -> Generator (list byte);
  toHexString : list byte -> string;
  toAddress : list byte -> string;
  toSignedBN : list byte -> Z;
  ADDRESS_SIZE : Z;
  SELECTOR_SIZE : Z;
  PC_SIZE : Z;
  fullContractType : Types.ContractType -> TypesById -> Types.ContractType;
  fullEnumType : Types.EnumType -> TypesById -> Types.EnumType;
  findDecoderContext :
    list (string * DecoderContext.t) -> string -> option DecoderContext.t;
  contextToType : DecoderContext.t -> Types.ContractType;
  argumentsLimit : Z
}.

(** ** Padding checks *)

Definition isZeroByte (paddingByte : byte) : bool := Byte.eqb paddingByte x00.

Definition checkPaddingRight (bytes : list byte) (length : Index) : bool :=
  (* cut off the first length bytes *)
  let padding := slice bytes length None in
  forallb isZeroByte padding.

Definition checkPaddingLeft (bytes : list byte) (length : Index) : bool :=
  (* cut off the last length bytes *)
  let padding := slice bytes 0 (Some (neg length)) in
  forallb isZeroByte padding.

(** [value[0] & 0x80]; [value[0]] is [undefined] on an empty array, and
    [undefined & 0x80] is [0]. *)
Definition signBit (value : list byte) : N :=
  match value with
  | [] => 0%N
  | first :: _ => N.land (Byte.to_N first) 128
  end.

Definition checkPaddingSigned (bytes : list byte) (length : Index) : bool :=
  (* padding is all but the last length bytes *)
  let padding := slice bytes 0 (Some (neg length)) in
  (* meanwhile the actual value is those last length bytes *)
  let value := slice bytes (neg length) None in
  let signByte := if (signBit value =? 0)%N then x00 else xff in
  forallb (fun paddingByte => Byte.eqb paddingByte signByte) padding.

(** [Math.ceil(Math.log2(numOptions) / 8)] at an array length: the least [k]
    with [numOptions <= 256 ^ k], and minus infinity at [0]. *)
Definition ceilLog2Over8 (numOptions : Z) : Index :=
  if numOptions =? 0 then NegInfinity
  else Finite ((Z.log2_up numOptions + 7) / 8).

(** [String.fromCharCode(c1, ..., cn)], once the call is made: each argument
    becomes one code unit, by [ToUint16]. *)
Definition fromCharCode (codes : list N) : Values.CodeUnits :=
  map (fun code => (code mod 65536)%N) codes.

(** [String.fromCharCode.apply(undefined, codes)]: the elements of the array
    become the arguments of one call, and the engine throws a [RangeError]
    when they are more than it accepts. *)
Definition fromCharCodeApply `{Collaborators} (codes : list N)
  : Completion Values.CodeUnits :=
  if Z.of_nat (length codes) <=? argumentsLimit
  then Returned (fromCharCode codes)
  else Threw RangeError.

(** ** The decoders *)

Section Decode.

Context `{Collaborators}.

Import Values.

Local Open Scope gen_scope.

(** Returns a [ContractValueInfo], not a result. *)
Definition decodeContract (addressBytes : list byte) (info : EvmInfo.t)
  : Generator ContractValueInfo :=
  let address := toAddress addressBytes in
  codeBytes <-yield CodeRequest address ;;
  let code := toHexString codeBytes in
  let context := findDecoderContext (EvmInfo.contexts info) code in
  match context with
  | Some context =>
      match DecoderContext.contractName context with
      | Some _ =>
          Return (ContractValueInfoKnown address (contextToType context))
      | None => Return (ContractValueInfoUnknown address)
      end
  | None => Return (ContractValueInfoUnknown address)
  end.

(** Returns a [FunctionExternalValueInfo], not a result. When no context
    has the identifier of the contract, [context.abi] is read off
    [undefined]. *)
Definition decodeExternalFunction (addressBytes selectorBytes : list byte)
    (info : EvmInfo.t) : Generator FunctionExternalValueInfo :=
  contract <-yield* decodeContract addressBytes info ;;
  let selector := toHexString selectorBytes in
  match contract with
  | ContractValueInfoUnknown _ =>
      Return (FunctionExternalValueInfoUnknown contract selector)
  | ContractValueInfoKnown _ class =>
      let contractId := Types.id class in
      let context :=
        List.find
          (fun context =>
             bool_decide (DecoderContext.contractId context = contractId))
          (map snd (EvmInfo.contexts info)) in
      match context with
      | None => Throw TypeError
      | Some context =>
          let abiEntry :=
            match DecoderContext.abi context with
            | Some abi => abi !! selector
            | None => None
            end in
          match abiEntry with
          | None =>
              Return (FunctionExternalValueInfoInvalid contract selector)
          | Some abiEntry =>
              let functionName := AbiEntry.name abiEntry in
              Return
                (FunctionExternalValueInfoKnown contract selector
                   functionName)
          end
      end
  end.

(** [x = c; body] where evaluating [c] may throw. *)
Definition andThen {A R : Type} (c : Completion A)
    (body : A -> Completion R) : Completion R :=
  match c with
  | Returned a => body a
  | Threw e => Threw e
  end.

(** Not a generator; it returns a result, so that it can return errors.
    It takes no mode. *)
Definition decodeInternalFunction (dataType : Types.Type_)
    (deployedPcBytes constructorPcBytes : list byte) (info : EvmInfo.t)
  : Completion Result :=
  andThen (toNumber (toBN deployedPcBytes)) (fun deployedPc =>
  andThen (toNumber (toBN constructorPcBytes)) (fun constructorPc =>
  let currentContext := EvmInfo.currentContext info in
  let context := {|
    Types.id := DecoderContext.contractId currentContext;
    Types.typeName := DecoderContext.contractName currentContext;
    Types.contractKind := DecoderContext.contractKind currentContext;
    Types.payable := DecoderContext.payable currentContext
  |} in
  (* before anything else: do we even have an internal functions table? *)
  match EvmInfo.internalFunctionsTable info with
  | None =>
      Returned
        (FunctionInternalValue dataType
           (FunctionInternalValueInfoUnknown context deployedPc
              constructorPc))
  | Some internalFunctionsTable =>
      (* also before we continue: is the PC zero? *)
      if (deployedPc =? 0) && (constructorPc =? 0) then
        Returned
          (FunctionInternalValue dataType
             (FunctionInternalValueInfoException context deployedPc
                constructorPc))
      (* another check: is only the deployed PC zero? *)
      else if (deployedPc =? 0) && negb (constructorPc =? 0) then
        Returned
          (FunctionInternalErrorResult dataType
             (MalformedInternalFunctionError context constructorPc))
      (* one last pre-check: a deployed-format pointer in a constructor? *)
      else if DecoderContext.isConstructor currentContext
              && (constructorPc =? 0) then
        Returned
          (FunctionInternalErrorResult dataType
             (DeployedFunctionInConstructorError context deployedPc))
      else
        (* otherwise, we get our function *)
        let pc :=
          if DecoderContext.isConstructor currentContext
          then constructorPc
          else deployedPc in
        match internalFunctionsTable !! pc with
        | None =>
            Returned
              (FunctionInternalErrorResult dataType
                 (NoSuchInternalFunctionError context deployedPc
                    constructorPc))
        | Some functionEntry =>
            if FunctionEntry.isDesignatedInvalid functionEntry then
              Returned
                (FunctionInternalValue dataType
                   (FunctionInternalValueInfoException context deployedPc
                      constructorPc))
            else
              let name := FunctionEntry.name functionEntry in
              let definedIn := {|
                Types.id := FunctionEntry.contractId functionEntry;
                Types.typeName := FunctionEntry.contractName functionEntry;
                Types.contractKind :=
                  FunctionEntry.contractKind functionEntry;
                Types.payable := FunctionEntry.contractPayable functionEntry
              |} in
              Returned
                (FunctionInternalValue dataType
                   (FunctionInternalValueInfoKnown context deployedPc
                      constructorPc name definedIn))
        end
  end)).

Definition decodeValue (dataType : Types.Type_) (pointer : DataPointer)
    (info : EvmInfo.t) (mode : DecoderMode) : Generator Result :=
  let state := EvmInfo.state info in
  let permissivePadding := DecoderMode_eqb mode permissive in
  let strict := DecoderMode_eqb mode strictMode in
  bytes <-try-yield* read pointer state
    catch error =>
      (if strict then Throw StopDecodingError
       else Return (GenericErrorResult dataType (errorField error))) ;;
  match dataType with
  | Types.bool_ =>
      if negb (checkPaddingLeft bytes 1) then
        if strict then Throw StopDecodingError
        else Return
          (BoolErrorResult dataType (BoolPaddingError (toHexString bytes)))
      else
        let numeric := toBN bytes in
        if numeric =? 0 then Return (BoolValue dataType false)
        else if numeric =? 1 then Return (BoolValue dataType true)
        else
          if strict then Throw StopDecodingError
          else Return
            (BoolErrorResult dataType (BoolOutOfRangeError numeric))
  | Types.uint bits =>
      (* first, check padding (if needed) *)
      if negb permissivePadding
         && negb (checkPaddingLeft bytes (Z.quot bits 8)) then
        if strict then Throw StopDecodingError
        else Return
          (UintErrorResult dataType (UintPaddingError (toHexString bytes)))
      else
        (* now, truncate to appropriate length *)
        let bytes := slice bytes (Z.quot (- bits) 8) None in
        Return (UintValue dataType (toBN bytes))
  | Types.int bits =>
      if negb permissivePadding
         && negb (checkPaddingSigned bytes (Z.quot bits 8)) then
        if strict then Throw StopDecodingError
        else Return
          (IntErrorResult dataType (IntPaddingError (toHexString bytes)))
      else
        let bytes := slice bytes (Z.quot (- bits) 8) None in
        Return (IntValue dataType (toSignedBN bytes))
  | Types.address =>
      if negb permissivePadding
         && negb (checkPaddingLeft bytes ADDRESS_SIZE) then
        if strict then Throw StopDecodingError
        else Return
          (AddressErrorResult dataType
             (AddressPaddingError (toHexString bytes)))
      else Return (AddressValue dataType (toAddress bytes))
  | Types.contract_ contractType =>
      if negb permissivePadding
         && negb (checkPaddingLeft bytes ADDRESS_SIZE) then
        if strict then Throw StopDecodingError
        else Return
          (ContractErrorResult dataType
             (ContractPaddingError (toHexString bytes)))
      else
        let fullType :=
          fullContractType contractType (EvmInfo.userDefinedTypes info) in
        contractValueInfo <-yield* decodeContract bytes info ;;
        Return (ContractValue fullType contractValueInfo)
  | Types.bytes kind =>
      match kind with
      | Types.static length =>
          (* first, check padding (if needed) *)
          if negb permissivePadding
             && negb (checkPaddingRight bytes length) then
            if strict then Throw StopDecodingError
            else Return
              (BytesErrorResult dataType
                 (BytesPaddingError (toHexString bytes)))
          else
            (* now, truncate to appropriate length *)
            let bytes := slice bytes 0 (Some (Finite length)) in
            Return (BytesValue dataType (toHexString bytes))
      | Types.dynamic => Return (BytesValue dataType (toHexString bytes))
      end
  | Types.string_ =>
      (* there is no padding check for strings *)
      complete
        (andThen (fromCharCodeApply (map Byte.to_N bytes)) (fun value =>
         Returned (StringValue dataType value)))
  | Types.function visibility =>
      match visibility with
      | Types.external =>
          if negb (checkPaddingRight bytes (ADDRESS_SIZE + SELECTOR_SIZE))
          then
            if strict then Throw StopDecodingError
            else Return
              (FunctionExternalErrorResult dataType
                 (FunctionExternalNonStackPaddingError (toHexString bytes)))
          else
            let address := slice bytes 0 (Some (Finite ADDRESS_SIZE)) in
            let selector :=
              slice bytes ADDRESS_SIZE
                (Some (Finite (ADDRESS_SIZE + SELECTOR_SIZE))) in
            value <-yield* decodeExternalFunction address selector info ;;
            Return (FunctionExternalValue dataType value)
      | Types.internal =>
          if negb (checkPaddingLeft bytes (2 * PC_SIZE)) then
            if strict then Throw StopDecodingError
            else Return
              (FunctionInternalErrorResult dataType
                 (FunctionInternalPaddingError (toHexString bytes)))
          else
            let deployedPc := slice bytes (- PC_SIZE) None in
            let constructorPc :=
              slice bytes (- PC_SIZE * 2) (Some (Finite (- PC_SIZE))) in
            complete
              (decodeInternalFunction dataType deployedPc constructorPc info)
      end
  | Types.enum enumType =>
      let numeric := toBN bytes in
      let fullType :=
        fullEnumType enumType (EvmInfo.userDefinedTypes info) in
      match Types.options fullType with
      | None =>
          if strict then Throw StopDecodingError
          else Return
            (EnumErrorResult fullType
               (EnumNotFoundDecodingError fullType numeric))
      | Some options =>
          let numOptions := Z.of_nat (length options) in
          let numBytes := ceilLog2Over8 numOptions in
          if negb (checkPaddingLeft bytes numBytes) then
            if strict then Throw StopDecodingError
            else Return
              (EnumErrorResult fullType
                 (EnumPaddingError fullType (toHexString bytes)))
          else if numeric <? numOptions then
            (* [numeric] is below an array length here, so that
               [toNumber] does not fail *)
            let name := options !! Z.to_nat numeric in
            Return (EnumValue fullType numeric name)
          else
            if strict then Throw StopDecodingError
            else Return
              (EnumErrorResult fullType
                 (EnumOutOfRangeError fullType numeric))
      end
  | Types.fixed _ _ =>
      (* skipping padding check as we don't support this anyway *)
      let hex := toHexString bytes in
      if strict then Throw StopDecodingError
      else Return
        (FixedErrorResult dataType (FixedPointNotYetSupportedError hex))
  | Types.ufixed _ _ =>
      let hex := toHexString bytes in
      if strict then Throw StopDecodingError
      else Return
        (UfixedErrorResult dataType (FixedPointNotYetSupportedError hex))
  end.

End Decode.

Import Values.

(** ** A concrete set of collaborators

    Enough of the other modules to run the decoders on concrete words: a
    pointer is a literal holding its bytes, or a place outside the state. *)

Module Sample.

Definition carriers : Carriers := {|
  DataPointer := option (list byte);
  EvmState := unit;
  ReadRequest := Empty_set;
  GenericError := string;
  TypesById := unit
|}.

Definition hexDigit (n : N) : string :=
  match String.get (N.to_nat n) "0123456789abcdef" with
  | Some c => String c EmptyString
  | None => EmptyString
  end.

Definition hexByte (b : byte) : string :=
  (hexDigit (Byte.to_N b / 16) +:+ hexDigit (Byte.to_N b mod 16))%N.

Definition hex (bytes : list byte) : string :=
  "0x" +:+ String.concat "" (map hexByte bytes).

Definition signed (bytes : list byte) : Z :=
  if (signBit bytes =? 0)%N then toBN bytes
  else toBN bytes - 256 ^ Z.of_nat (length bytes).

Definition contextOfCode (contexts : list (string * DecoderContext.t))
    (code : string) : option DecoderContext.t :=
  snd <$> List.find (fun entry => String.eqb (fst entry) code) contexts.

Definition typeOfContext (context : DecoderContext.t)
  : Types.ContractType := {|
  Types.id := DecoderContext.contractId context;
  Types.typeName := DecoderContext.contractName context;
  Types.contractKind := DecoderContext.contractKind context;
  Types.payable := DecoderContext.payable context
|}.

Definition collaborators : @Collaborators carriers := {|
  read := fun (pointer : @DataPointer carriers) _ =>
    match pointer with
    | Some literal => Return literal
    | None => Throw (@DecodingError carriers "ReadErrorStack")
    end;
  toHexString := hex;
  toAddress := fun bytes => hex (slice bytes (-20) None);
  toSignedBN := signed;
  ADDRESS_SIZE := 20;
  SELECTOR_SIZE := 4;
  PC_SIZE := 4;
  fullContractType := fun type _ => type;
  fullEnumType := fun type _ => type;
  findDecoderContext := contextOfCode;
  contextToType := typeOfContext;
  argumentsLimit := 125000
|}.

(** A caller that knows one contract: the code at every address is the
    two bytes [0xc0de]. *)
Definition driver : @Driver carriers := {|
  DriverState := unit;
  respond := fun s _ => ([xc0; xde], s)
|}.

Definition token : DecoderContext.t := {|
  DecoderContext.contractName := Some "Token";
  DecoderContext.contractId := Some 7;
  DecoderContext.contractKind := Some Types.contract;
  DecoderContext.payable := Some false;
  DecoderContext.isConstructor := false;
  DecoderContext.abi :=
    Some {[ "0xa9059cbb" := {| AbiEntry.name := "transfer" |} ]}
|}.

Definition transferEntry : FunctionEntry.t := {|
  FunctionEntry.name := "_transfer";
  FunctionEntry.contractId := Some 7;
  FunctionEntry.contractName := Some "Token";
  FunctionEntry.contractKind := Some Types.contract;
  FunctionEntry.contractPayable := Some false;
  FunctionEntry.isDesignatedInvalid := false
|}.

Definition info (table : option (gmap Z FunctionEntry.t))
  : @EvmInfo.t carriers := {|
  EvmInfo.state := tt : @EvmState carriers;
  EvmInfo.contexts := [("0xc0de", token)];
  EvmInfo.userDefinedTypes := tt : @TypesById carriers;
  EvmInfo.internalFunctionsTable := table;
  EvmInfo.currentContext := token
|}.

End Sample.

(** ** Notions used in the statements *)

(** The info with another table of internal functions, or none. *)
Definition withTable `{Carriers} (info : EvmInfo.t)
    (table : option (gmap Z FunctionEntry.t)) : EvmInfo.t := {|
  EvmInfo.state := EvmInfo.state info;
  EvmInfo.contexts := EvmInfo.contexts info;
  EvmInfo.userDefinedTypes := EvmInfo.userDefinedTypes info;
  EvmInfo.internalFunctionsTable := table;
  EvmInfo.currentContext := EvmInfo.currentContext info
|}.

(** The contract type [decodeInternalFunction] builds from the current
    context. *)
Definition currentContract `{Carriers} (info : EvmInfo.t)
  : Types.ContractType := {|
  Types.id := DecoderContext.contractId (EvmInfo.currentContext info);
  Types.typeName := DecoderContext.contractName (EvmInfo.currentContext info);
  Types.contractKind :=
    DecoderContext.contractKind (EvmInfo.currentContext info);
  Types.payable := DecoderContext.payable (EvmInfo.currentContext info)
|}.

(** The contract type built from an entry of the table. *)
Definition definingContract (functionEntry : FunctionEntry.t)
  : Types.ContractType := {|
  Types.id := FunctionEntry.contractId functionEntry;
  Types.typeName := FunctionEntry.contractName functionEntry;
  Types.contractKind := FunctionEntry.contractKind functionEntry;
  Types.payable := FunctionEntry.contractPayable functionEntry
|}.

(** The entry of a selector in the ABI of a context, when it has both. *)
Definition abiEntryOf (context : DecoderContext.t) (selector : string)
  : option AbiEntry.t :=
  DecoderContext.abi context ≫= lookup selector.

(** The results that are error results. *)
Definition isErrorResult `{Carriers} (result : Result) : bool :=
  match result with
  | GenericErrorResult _ _ | BoolErrorResult _ _ | UintErrorResult _ _
  | IntErrorResult _ _ | AddressErrorResult _ _ | ContractErrorResult _ _
  | BytesErrorResult _ _ | FunctionExternalErrorResult _ _
  | FunctionInternalErrorResult _ _ | EnumErrorResult _ _
  | FixedErrorResult _ _ | UfixedErrorResult _ _ => true
  | _ => false
  end.

(** The error an error result carries, when it is one of [DecoderError]. *)
Definition errorOf `{Carriers} (result : Result) : option DecoderError :=
  match result with
  | BoolErrorResult _ e | UintErrorResult _ e | IntErrorResult _ e
  | AddressErrorResult _ e | ContractErrorResult _ e | BytesErrorResult _ e
  | FunctionExternalErrorResult _ e | FunctionInternalErrorResult _ e
  | EnumErrorResult _ e | FixedErrorResult _ e | UfixedErrorResult _ e =>
      Some e
  | _ => None
  end.

Definition isPaddingError (e : DecoderError) : bool :=
  match e with
  | BoolPaddingError _ | UintPaddingError _ | IntPaddingError _
  | AddressPaddingError _ | ContractPaddingError _ | BytesPaddingError _
  | FunctionExternalNonStackPaddingError _ | FunctionInternalPaddingError _
  | EnumPaddingError _ _ => true
  | _ => false
  end.

Definition isPaddingErrorResult `{Carriers} (result : Result) : bool :=
  match errorOf result with
  | Some e => isPaddingError e
  | None => false
  end.

(** The error results that [decodeInternalFunction] returns. *)
Definition fromResolver `{Carriers} (result : Result) : bool :=
  match result with
  | FunctionInternalErrorResult _ (MalformedInternalFunctionError _ _)
  | FunctionInternalErrorResult _ (DeployedFunctionInConstructorError _ _)
  | FunctionInternalErrorResult _ (NoSuchInternalFunctionError _ _ _) => true
  | _ => false
  end.

(** Strict mode seen from normal mode: an error result that does not come
    from [decodeInternalFunction] becomes the stop of the decoding. *)
Definition stopOnError `{Carriers} (c : Completion Result)
  : Completion Result :=
  match c with
  | Returned result =>
      if isErrorResult result && negb (fromResolver result)
      then Threw StopDecodingError
      else Returned result
  | Threw e => Threw e
  end.

(** The type classes whose padding check looks at the mode. *)
Definition paddingCheckLooksAtMode (dataType : Types.Type_) : bool :=
  match dataType with
  | Types.uint _ | Types.int _ | Types.address | Types.contract_ _
  | Types.bytes _ => true
  | _ => false
  end.

(** Every contract that [decodeContract] can resolve as known has a context
    of its identifier among the contexts of the info. *)
Definition registryConsistent `{Collaborators} (info : EvmInfo.t) : Prop :=
  forall (code : string) (context : DecoderContext.t),
    findDecoderContext (EvmInfo.contexts info) code = Some context ->
    DecoderContext.contractName context <> None ->
    exists context' : DecoderContext.t,
      List.find
        (fun candidate =>
           bool_decide
             (DecoderContext.contractId candidate =
              Types.id (contextToType context)))
        (map snd (EvmInfo.contexts info)) = Some context'.

(** ** Concrete words and types *)

(** A word of [n] zero bytes and then the bytes [last]. *)
Definition word (n : nat) (last : list byte) : list byte :=
  repeat x00 n ++ last.

Definition oneOption : Types.EnumType := {|
  Types.enumId := 1;
  Types.enumName := "Unit";
  Types.options := Some ["Only"]
|}.

Definition internalFunction : Types.Type_ := Types.function Types.internal.

(** The type of the current contract of the sample info. *)
Definition tokenType : Types.ContractType :=
  Sample.typeOfContext Sample.token.

Definition noOptions : Types.EnumType := {|
  Types.enumId := 3;
  Types.enumName := "Never";
  Types.options := Some []
|}.

Definition threeOptions : Types.EnumType := {|
  Types.enumId := 2;
  Types.enumName := "Colour";
  Types.options := Some ["Red"; "Green"; "Blue"]
|}.

(** ** Notions used in the further properties *)

(** The number a word stands for in two's complement. *)
Definition twosComplement (bytes : list byte) : Z :=
  if (signBit bytes =? 0)%N then toBN bytes
  else toBN bytes - 256 ^ Z.of_nat (length bytes).

(** The requests a generator makes when it is run against a driver, in
    order. *)
Fixpoint requests `{Carriers} {R : Type} (d : Driver) (s : DriverState d)
    (g : Generator R) : list DecoderRequest :=
  match g with
  | Return _ | Throw _ => []
  | Yield request resume =>
      request ::
      (let (response, s') := respond d s request in
       requests d s' (resume response))
  end.

(** The type classes whose decoding resolves a contract. *)
Definition resolvesContract (dataType : Types.Type_) : bool :=
  match dataType with
  | Types.contract_ _ | Types.function Types.external => true
  | _ => false
  end.

(** The bytes that [read] gives for a string are not more than the engine
    accepts as the arguments of one call. *)
Definition withinArgumentsLimit `{Collaborators} (d : Driver)
    (s : DriverState d) (dataType : Types.Type_) (pointer : DataPointer)
    (info : EvmInfo.t) : Prop :=
  dataType = Types.string_ ->
  forall (bytes : list byte) (s' : DriverState d),
    run d s (read pointer (EvmInfo.state info)) = (Returned bytes, s') ->
    Z.of_nat (length bytes) <= argumentsLimit.

(** The options of an enum are fewer than [2 ^ 26]: [ltn] of bn.js takes no
    greater number than [0x3ffffff]. *)
Definition fewOptions `{Collaborators} (dataType : Types.Type_)
    (info : EvmInfo.t) : Prop :=
  forall (enumType : Types.EnumType) (options : list string),
    dataType = Types.enum enumType ->
    Types.options (fullEnumType enumType (EvmInfo.userDefinedTypes info)) =
    Some options ->
    Z.of_nat (length options) < 2 ^ 26.

(** A text of 150000 bytes. *)
Definition longText : list byte := repeat x41 (Z.to_nat 150000).

(** * Properties *)

(** ** Running generators *)

Section Running.

Context `{Carriers}.

Lemma run_tryBind {A R : Type} (d : Driver) (g : Generator A)
    (body : A -> Generator R) (handler : Exn -> Generator R) :
  forall s,
    run d s (tryBind g body handler) =
    match run d s g with
    | (Returned a, s') => run d s' (body a)
    | (Threw e, s') => run d s' (handler e)
    end.
Proof.
  induction g as [a | e | request resume IH]; intros s; simpl; try reflexivity.
  destruct (respond d s request) as [response s']. apply IH.
Qed.

Lemma run_bind {A R : Type} (d : Driver) (g : Generator A)
    (body : A -> Generator R) s :
  run d s (bind g body) =
  match run d s g with
  | (Returned a, s') => run d s' (body a)
  | (Threw e, s') => (Threw e, s')
  end.
Proof. unfold bind. rewrite run_tryBind. reflexivity. Qed.

End Running.

(** ** The dispatcher on concrete words *)

(** Once [read] has returned, [decodeValue] goes on with the bytes. *)
Ltac after_read Hread :=
  unfold decodeValue; rewrite run_tryBind, Hread; cbn beta iota.

Section Words.

Context `{Collaborators}.

Variables (d : Driver) (s s' : DriverState d).
Variables (pointer : DataPointer) (info : EvmInfo.t).

(** C6: a uint8 read from 31 zero bytes and [0xff] is 255 in every mode;
    read from 30 zero bytes, [0x01] and [0xff] it is a padding error in
    normal mode, stops the decoding in strict mode, and is 255 in
    permissive mode, where only the last byte is looked at. *)
Theorem decodeValue_uint8_words (bytes : list byte) :
  run d s (read pointer (EvmInfo.state info)) = (Returned bytes, s') ->
  (bytes = repeat x00 31 ++ [xff] ->
   forall mode,
     run d s (decodeValue (Types.uint 8) pointer info mode) =
     (Returned (UintValue (Types.uint 8) 255), s')) /\
  (bytes = repeat x00 30 ++ [x01; xff] ->
   run d s (decodeValue (Types.uint 8) pointer info normal) =
   (Returned
      (UintErrorResult (Types.uint 8)
         (UintPaddingError (toHexString bytes))), s') /\
   run d s (decodeValue (Types.uint 8) pointer info strictMode) =
   (Threw StopDecodingError, s') /\
   run d s (decodeValue (Types.uint 8) pointer info permissive) =
   (Returned (UintValue (Types.uint 8) 255), s')).
Proof.
  intros Hread. split; intros ->.
  - intros mode. after_read Hread. destruct mode; reflexivity.
  - repeat split; after_read Hread; reflexivity.
Qed.

(** C7: a bool read from 31 zero bytes and [0x02] is out of range whatever
    the mode: in normal and permissive mode the result is the
    [BoolOutOfRangeError] of 2, and strict mode stops the decoding
    instead of returning it. *)
Theorem decodeValue_bool_two (bytes : list byte) (mode : DecoderMode) :
  run d s (read pointer (EvmInfo.state info)) = (Returned bytes, s') ->
  bytes = repeat x00 31 ++ [x02] ->
  run d s (decodeValue Types.bool_ pointer info mode) =
  match mode with
  | strictMode => (Threw StopDecodingError, s')
  | _ =>
      (Returned (BoolErrorResult Types.bool_ (BoolOutOfRangeError 2)), s')
  end.
Proof.
  intros Hread ->. after_read Hread. destruct mode; reflexivity.
Qed.

End Words.

(** ** Facts about bytes and slices *)

(** [slice] as JavaScript has it: a negative index counts from the end, [-0]
    is [0], and indices beyond the array are clamped. *)
Example slice_negative_indices :
  slice [x01; x02; x03] (-1) None = [x03] /\
  slice [x01; x02; x03] 0 (Some (Finite (-1))) = [x01; x02] /\
  slice [x01; x02; x03] (-2) (Some (Finite (-1))) = [x02].
Proof. repeat split. Qed.

Example slice_minus_zero :
  slice [x01; x02; x03] 0 (Some (neg 0)) = [] /\
  slice [x01; x02; x03] (neg 0) None = [x01; x02; x03].
Proof. split; reflexivity. Qed.

Example slice_clamped :
  slice [x01; x02; x03] 5 None = [] /\
  slice [x01; x02; x03] (-5) None = [x01; x02; x03] /\
  slice [x01; x02; x03] 0 (Some PosInfinity) = [x01; x02; x03].
Proof. repeat split. Qed.

Example checkPaddingLeft_words :
  checkPaddingLeft [x00; x00; xff] 1 = true /\
  checkPaddingLeft [x00; x01; xff] 1 = false /\
  checkPaddingLeft [x01; x02; x03] NegInfinity = false.
Proof. repeat split. Qed.

Example checkPaddingRight_words :
  checkPaddingRight [xab; xcd; x00; x00] 2 = true /\
  checkPaddingRight [xab; xcd; x00; x01] 2 = false.
Proof. split; reflexivity. Qed.

Example checkPaddingSigned_words :
  checkPaddingSigned [xff; xff; x80] 1 = true /\
  checkPaddingSigned [x00; x00; x80] 1 = false /\
  checkPaddingSigned [x00; x00; x7f] 1 = true /\
  checkPaddingSigned [xff; xff; x7f] 1 = false.
Proof. repeat split. Qed.

Example ceilLog2Over8_values :
  map ceilLog2Over8 [0; 1; 2; 256; 257; 65536; 65537] =
  [NegInfinity; Finite 0; Finite 1; Finite 1; Finite 2; Finite 2; Finite 3].
Proof. reflexivity. Qed.

Example toBN_words :
  toBN [] = 0 /\ toBN [x01; x00] = 256 /\ toBN [x00; x00; xff] = 255.
Proof. repeat split. Qed.

Lemma toBN_from (bytes : list byte) :
  forall acc,
    fold_left (fun acc b => acc * 256 + Z.of_N (Byte.to_N b)) bytes acc =
    acc * 256 ^ Z.of_nat (length bytes) + toBN bytes.
Proof.
  unfold toBN.
  induction bytes as [| b bytes IH]; intros acc; cbn [fold_left length].
  - change (256 ^ Z.of_nat 0) with 1. lia.
  - rewrite IH, (IH (0 * 256 + _)), Nat2Z.inj_succ, Z.pow_succ_r by lia. lia.
Qed.

Lemma toBN_cons (b : byte) (bytes : list byte) :
  toBN (b :: bytes) =
  Z.of_N (Byte.to_N b) * 256 ^ Z.of_nat (length bytes) + toBN bytes.
Proof. unfold toBN at 1. cbn [fold_left]. rewrite toBN_from. lia. Qed.

Lemma toBN_range (bytes : list byte) :
  0 <= toBN bytes < 256 ^ Z.of_nat (length bytes).
Proof.
  induction bytes as [| b bytes IH].
  - cbn. lia.
  - rewrite toBN_cons. cbn [length].
    rewrite Nat2Z.inj_succ, Z.pow_succ_r by lia.
    pose proof (Byte.to_N_bounded b). nia.
Qed.

Lemma fromCharCode_bytes (bytes : list byte) :
  fromCharCode (map Byte.to_N bytes) = map Byte.to_N bytes.
Proof.
  unfold fromCharCode. induction bytes as [| b bytes IH]; cbn [map].
  - reflexivity.
  - rewrite IH. f_equal. apply N.mod_small.
    pose proof (Byte.to_N_bounded b). lia.
Qed.

Lemma checkPaddingLeft_zero (bytes : list byte) :
  checkPaddingLeft bytes 0 = true.
Proof.
  unfold checkPaddingLeft, slice, neg, relativeIndex.
  change (- 0) with 0. change (0 <? 0) with false. cbn iota.
  rewrite Z.min_l by lia. reflexivity.
Qed.

(** ** Type classes that decode the same way whatever the bytes *)

Section Classes.

Context `{Collaborators}.

Variables (d : Driver) (s s' : DriverState d).
Variables (pointer : DataPointer) (info : EvmInfo.t).

(** C8: a string of bytes that the engine accepts as the arguments of one
    call never decodes to an error, in any mode: whatever these bytes are,
    also bytes that are not UTF-8 such as [0x41 0xff 0x42], the result is a
    [StringValue] with one code unit per byte, of the value of that byte; no
    padding is checked and nothing is validated or converted. A string of
    more bytes than the engine accepts gives no value: the call of
    [String.fromCharCode.apply] throws a [RangeError], in every mode. *)
Theorem decodeValue_string_bytes (bytes : list byte) (mode : DecoderMode) :
  run d s (read pointer (EvmInfo.state info)) = (Returned bytes, s') ->
  (Z.of_nat (length bytes) <= argumentsLimit ->
   run d s (decodeValue Types.string_ pointer info mode) =
   (Returned (StringValue Types.string_ (map Byte.to_N bytes)), s') /\
   (bytes = [x41; xff; x42] ->
    run d s (decodeValue Types.string_ pointer info mode) =
    (Returned (StringValue Types.string_ [65; 255; 66]%N), s'))) /\
  (argumentsLimit < Z.of_nat (length bytes) ->
   run d s (decodeValue Types.string_ pointer info mode) =
   (Threw RangeError, s')).
Proof.
  intros Hread. split.
  - intros Hshort.
    assert (Hrun :
      run d s (decodeValue Types.string_ pointer info mode) =
      (Returned (StringValue Types.string_ (map Byte.to_N bytes)), s')).
    { after_read Hread. unfold fromCharCodeApply. rewrite length_map.
      replace (Z.of_nat (length bytes) <=? argumentsLimit) with true
        by (symmetry; apply Z.leb_le; exact Hshort).
      cbn [andThen complete run]. rewrite fromCharCode_bytes. reflexivity. }
    split; [exact Hrun |]. intros ->. exact Hrun.
  - intros Hlong. after_read Hread. unfold fromCharCodeApply.
    rewrite length_map.
    replace (Z.of_nat (length bytes) <=? argumentsLimit) with false
      by (symmetry; apply Z.leb_gt; exact Hlong).
    reflexivity.
Qed.

(** C9: a fixed or ufixed type decodes to the [NotYetSupported] error
    whatever bytes were read, in normal and permissive mode; no padding
    check is made; strict mode stops the decoding instead of returning the
    error. *)
Theorem decodeValue_fixed_point (bits places : Z) (bytes : list byte)
    (mode : DecoderMode) :
  run d s (read pointer (EvmInfo.state info)) = (Returned bytes, s') ->
  let notYetSupported := FixedPointNotYetSupportedError (toHexString bytes) in
  run d s (decodeValue (Types.fixed bits places) pointer info mode) =
  match mode with
  | strictMode => (Threw StopDecodingError, s')
  | _ =>
      (Returned
         (FixedErrorResult (Types.fixed bits places) notYetSupported), s')
  end /\
  run d s (decodeValue (Types.ufixed bits places) pointer info mode) =
  match mode with
  | strictMode => (Threw StopDecodingError, s')
  | _ =>
      (Returned
         (UfixedErrorResult (Types.ufixed bits places) notYetSupported), s')
  end.
Proof.
  intros Hread. split; after_read Hread; destruct mode; reflexivity.
Qed.

(** C10: for an enum with exactly one option the width of the padding
    check is [ceil(log2(1)/8) = 0] bytes, and [checkPaddingLeft] at width 0
    holds of all bytes. So the decoding never gives an [EnumPaddingError]:
    the result is the [EnumValue] of the option when the number read is 0,
    and otherwise the number is out of range: an [EnumOutOfRangeError] in
    normal and permissive mode, which strict mode turns into the stop of
    the decoding. *)
Theorem decodeValue_enum_one_option (enumType : Types.EnumType)
    (option_ : string) (bytes : list byte) (mode : DecoderMode) :
  run d s (read pointer (EvmInfo.state info)) = (Returned bytes, s') ->
  let fullType := fullEnumType enumType (EvmInfo.userDefinedTypes info) in
  Types.options fullType = Some [option_] ->
  ceilLog2Over8 1 = Finite 0 /\
  checkPaddingLeft bytes (ceilLog2Over8 1) = true /\
  run d s (decodeValue (Types.enum enumType) pointer info mode) =
  if toBN bytes =? 0
  then (Returned (EnumValue fullType 0 (Some option_)), s')
  else
    match mode with
    | strictMode => (Threw StopDecodingError, s')
    | _ =>
        (Returned
           (EnumErrorResult fullType
              (EnumOutOfRangeError fullType (toBN bytes))), s')
    end.
Proof.
  intros Hread fullType Hoptions.
  split; [reflexivity |]. split; [apply checkPaddingLeft_zero |].
  after_read Hread. fold fullType. rewrite Hoptions.
  cbn [length Z.of_nat]. change (ceilLog2Over8 _) with (Finite 0).
  rewrite checkPaddingLeft_zero. cbn [negb].
  pose proof (toBN_range bytes) as [Hlow _].
  destruct (Z.eqb_spec (toBN bytes) 0) as [Hzero | Hnonzero].
  - rewrite Hzero. reflexivity.
  - replace (toBN bytes <? _) with false by (symmetry; apply Z.ltb_ge; lia).
    destruct mode; reflexivity.
Qed.

End Classes.

(** ** The resolver of internal functions *)

Section InternalFunctions.

Context `{Collaborators}.

Variables (dataType : Types.Type_) (info : EvmInfo.t).
Variables (deployedPcBytes constructorPcBytes : list byte).

Let inConstructor : bool :=
  DecoderContext.isConstructor (EvmInfo.currentContext info).
Let context : Types.ContractType := currentContract info.
Let decoded : Completion Result :=
  decodeInternalFunction dataType deployedPcBytes constructorPcBytes info.

(** C3: the cases of [decodeInternalFunction], each under the negation of
    the ones before it. (1) Without a table the result is the Unknown
    value with the current contract and both program counters. With a
    table: (2) both counters zero give the Exception value; (3) a zero
    deployed counter with a nonzero constructor counter gives the
    Malformed error; (4) in a constructor, a zero constructor counter
    gives the DeployedFunctionInConstructor error; (5) otherwise the
    counter looked up is the constructor one in a constructor and the
    deployed one elsewhere: no entry gives the NoSuchInternalFunction
    error, an entry designated invalid gives the Exception value, any
    other entry gives the Known value with its name and its contract. *)
Theorem decodeInternalFunction_cases (deployedPc constructorPc : Z) :
  toNumber (toBN deployedPcBytes) = Returned deployedPc ->
  toNumber (toBN constructorPcBytes) = Returned constructorPc ->
  (EvmInfo.internalFunctionsTable info = None ->
   decoded =
   Returned
     (FunctionInternalValue dataType
        (FunctionInternalValueInfoUnknown context deployedPc
           constructorPc))) /\
  (forall table : gmap Z FunctionEntry.t,
     EvmInfo.internalFunctionsTable info = Some table ->
     (deployedPc = 0 -> constructorPc = 0 ->
      decoded =
      Returned
        (FunctionInternalValue dataType
           (FunctionInternalValueInfoException context deployedPc
              constructorPc))) /\
     (deployedPc = 0 -> constructorPc <> 0 ->
      decoded =
      Returned
        (FunctionInternalErrorResult dataType
           (MalformedInternalFunctionError context constructorPc))) /\
     (deployedPc <> 0 -> inConstructor = true -> constructorPc = 0 ->
      decoded =
      Returned
        (FunctionInternalErrorResult dataType
           (DeployedFunctionInConstructorError context deployedPc))) /\
     (deployedPc <> 0 -> inConstructor = false \/ constructorPc <> 0 ->
      let pc := if inConstructor then constructorPc else deployedPc in
      (table !! pc = None ->
       decoded =
       Returned
         (FunctionInternalErrorResult dataType
            (NoSuchInternalFunctionError context deployedPc
               constructorPc))) /\
      (forall functionEntry : FunctionEntry.t,
         table !! pc = Some functionEntry ->
         decoded =
         if FunctionEntry.isDesignatedInvalid functionEntry
         then
           Returned
             (FunctionInternalValue dataType
                (FunctionInternalValueInfoException context deployedPc
                   constructorPc))
         else
           Returned
             (FunctionInternalValue dataType
                (FunctionInternalValueInfoKnown context deployedPc
                   constructorPc (FunctionEntry.name functionEntry)
                   (definingContract functionEntry)))))).
Proof.
  intros Hdeployed Hconstructor.
  subst decoded context inConstructor.
  unfold decodeInternalFunction, currentContract.
  rewrite Hdeployed, Hconstructor. cbn [andThen].
  split; [intros -> ; reflexivity |].
  intros table ->.
  split; [| split; [| split]].
  - intros -> ->. reflexivity.
  - intros -> Hc. apply Z.eqb_neq in Hc. rewrite Hc. reflexivity.
  - intros Hd -> ->. apply Z.eqb_neq in Hd. rewrite Hd. reflexivity.
  - intros Hd Hor.
    apply Z.eqb_neq in Hd. rewrite Hd. cbn [andb].
    assert (Hguard :
      DecoderContext.isConstructor (EvmInfo.currentContext info)
      && (constructorPc =? 0) = false).
    { destruct Hor as [-> | Hc]; [reflexivity |].
      apply Z.eqb_neq in Hc. rewrite Hc. apply andb_false_r. }
    rewrite Hguard.
    split; [intros -> | intros functionEntry ->]; reflexivity.
Qed.

(** C1, as the code has it: a pointer whose two program counters are zero
    decodes to the Exception value whenever a table is configured, and the
    table is not consulted: the result is the same for every table.
    Without a table the same pointer decodes to the Unknown value. *)
Theorem decodeInternalFunction_null_pointer :
  toBN deployedPcBytes = 0 ->
  toBN constructorPcBytes = 0 ->
  (forall table : gmap Z FunctionEntry.t,
     decodeInternalFunction dataType deployedPcBytes constructorPcBytes
       (withTable info (Some table)) =
     Returned
       (FunctionInternalValue dataType
          (FunctionInternalValueInfoException context 0 0))) /\
  decodeInternalFunction dataType deployedPcBytes constructorPcBytes
    (withTable info None) =
  Returned
    (FunctionInternalValue dataType
       (FunctionInternalValueInfoUnknown context 0 0)).
Proof.
  intros Hdeployed Hconstructor. subst context.
  unfold decodeInternalFunction. rewrite Hdeployed, Hconstructor.
  split; [intros table |]; reflexivity.
Qed.

End InternalFunctions.

(** ** The resolvers of contracts and external functions *)

Section ExternalFunctions.

Context `{Collaborators}.

Variables (d : Driver) (info : EvmInfo.t).

(** [decodeContract] asks for the code once and returns: it has no error
    of its own. *)
Lemma run_decodeContract (addressBytes : list byte) (s : DriverState d) :
  exists (contract : ContractValueInfo) (s' : DriverState d),
    run d s (decodeContract addressBytes info) = (Returned contract, s').
Proof.
  unfold decodeContract. cbn [run].
  destruct (respond d s _) as [codeBytes s'].
  destruct (findDecoderContext _ _) as [context |]; [| eauto].
  destruct (DecoderContext.contractName context); eauto.
Qed.

(** C5: the three outcomes of [decodeExternalFunction]. A contract
    resolved as unknown gives the Unknown outcome with that contract and
    the selector. A contract resolved as known, with a context of its
    identifier in the registry, gives the Invalid outcome (a value, not an
    error) when the ABI of that context has no entry for the selector, and
    the Known outcome with the contract, the selector and the name of the
    entry when it has one. *)
Theorem decodeExternalFunction_outcomes
    (addressBytes selectorBytes : list byte) (s s' : DriverState d)
    (contract : ContractValueInfo) :
  run d s (decodeContract addressBytes info) = (Returned contract, s') ->
  let selector := toHexString selectorBytes in
  let decoded :=
    run d s (decodeExternalFunction addressBytes selectorBytes info) in
  (forall address : string,
     contract = ContractValueInfoUnknown address ->
     decoded =
     (Returned (FunctionExternalValueInfoUnknown contract selector), s')) /\
  (forall (address : string) (class : Types.ContractType)
          (context : DecoderContext.t),
     contract = ContractValueInfoKnown address class ->
     List.find
       (fun context =>
          bool_decide (DecoderContext.contractId context = Types.id class))
       (map snd (EvmInfo.contexts info)) = Some context ->
     (abiEntryOf context selector = None ->
      decoded =
      (Returned (FunctionExternalValueInfoInvalid contract selector), s')) /\
     (forall abiEntry : AbiEntry.t,
        abiEntryOf context selector = Some abiEntry ->
        decoded =
        (Returned
           (FunctionExternalValueInfoKnown contract selector
              (AbiEntry.name abiEntry)), s'))).
Proof.
  intros Hcontract selector decoded. subst decoded selector.
  unfold decodeExternalFunction. rewrite run_bind, Hcontract.
  split.
  - intros address ->. reflexivity.
  - intros address class context -> Hfind. cbn beta iota.
    rewrite Hfind. unfold abiEntryOf.
    split.
    + intros Hnone.
      destruct (DecoderContext.abi context) as [abi |]; cbn in Hnone |- *;
        [rewrite Hnone |]; reflexivity.
    + intros abiEntry Hsome.
      destruct (DecoderContext.abi context) as [abi |]; cbn in Hsome |- *;
        [rewrite Hsome; reflexivity | discriminate].
Qed.

End ExternalFunctions.

(** ** Slices of program counters *)

Lemma slice_length {A : Type} (arr : list A) (start : Index)
    (end_ : option Index) :
  let len := Z.of_nat (length arr) in
  let k := relativeIndex len start in
  let final :=
    match end_ with
    | None => len
    | Some e => relativeIndex len e
    end in
  Z.of_nat (length (slice arr start end_)) =
  Z.max 0 (Z.min (final - k) (len - k)).
Proof.
  intros len k final. unfold slice. fold len k final.
  rewrite length_take, length_drop.
  assert (0 <= len) by (subst len; lia).
  assert (0 <= k <= len).
  { subst k. unfold relativeIndex.
    destruct start as [z | |]; [destruct (Z.ltb_spec z 0) |..]; lia. }
  assert (Z.of_nat (length arr) = len) by reflexivity.
  lia.
Qed.

Lemma toBN_small (bytes : list byte) :
  Z.of_nat (length bytes) <= 6 -> toBN bytes < 2 ^ 53.
Proof.
  intros Hlen. pose proof (toBN_range bytes) as [_ Hup].
  assert (256 ^ Z.of_nat (length bytes) <= 256 ^ 6)
    by (apply Z.pow_le_mono_r; lia).
  assert (256 ^ 6 < 2 ^ 53) by reflexivity. lia.
Qed.

Lemma programCounter_small (bytes : list byte) (size : Z) :
  1 <= size <= 6 ->
  toBN (slice bytes (- size) None) < 2 ^ 53 /\
  toBN (slice bytes (- size * 2) (Some (Finite (- size)))) < 2 ^ 53.
Proof.
  intros Hsize. split; apply toBN_small; rewrite slice_length;
    unfold relativeIndex.
  - replace (- size <? 0) with true by (symmetry; apply Z.ltb_lt; lia). lia.
  - replace (- size * 2 <? 0) with true by (symmetry; apply Z.ltb_lt; lia).
    replace (- size <? 0) with true by (symmetry; apply Z.ltb_lt; lia). lia.
Qed.

(** ** What the resolvers can end with *)

Section Resolvers.

Context `{Collaborators}.

Variables (d : Driver) (info : EvmInfo.t).

Lemma run_decodeContract_known (addressBytes : list byte)
    (s s' : DriverState d) (address : string) (class : Types.ContractType) :
  run d s (decodeContract addressBytes info) =
  (Returned (ContractValueInfoKnown address class), s') ->
  exists (code : string) (context : DecoderContext.t),
    findDecoderContext (EvmInfo.contexts info) code = Some context /\
    DecoderContext.contractName context <> None /\
    class = contextToType context.
Proof.
  unfold decodeContract. cbn [run].
  destruct (respond d s _) as [codeBytes s1].
  destruct (findDecoderContext _ _) as [context |] eqn:Hfind;
    [| discriminate].
  destruct (DecoderContext.contractName context) eqn:Hname;
    [| discriminate].
  intros [= _ <- _]. exists (toHexString codeBytes), context.
  rewrite Hname. auto.
Qed.

(** [decodeExternalFunction] returns, or fails on the missing context. *)
Lemma run_decodeExternalFunction (addressBytes selectorBytes : list byte)
    (s : DriverState d) :
  exists s' : DriverState d,
    (exists value : FunctionExternalValueInfo,
       run d s (decodeExternalFunction addressBytes selectorBytes info) =
       (Returned value, s')) \/
    (run d s (decodeExternalFunction addressBytes selectorBytes info) =
     (Threw TypeError, s') /\ ~ registryConsistent info).
Proof.
  destruct (run_decodeContract d info addressBytes s)
    as (contract & s' & Hcontract).
  exists s'. unfold decodeExternalFunction. rewrite run_bind, Hcontract.
  destruct contract as [address class | address]; [| eauto].
  cbn beta iota.
  destruct (List.find _ _) as [context |] eqn:Hfind.
  - left. destruct (DecoderContext.abi context) as [abi |]; [| eauto].
    destruct (abi !! _); eauto.
  - right. split; [reflexivity |]. intros Hconsistent.
    apply run_decodeContract_known in Hcontract
      as (code & context & Hcode & Hname & ->).
    destruct (Hconsistent code context Hcode Hname) as [context' Hsome].
    congruence.
Qed.

(** [decodeInternalFunction] returns a value or one of its own three
    errors, or fails in [toNumber]. *)
Lemma decodeInternalFunction_ends (dataType : Types.Type_)
    (deployedPcBytes constructorPcBytes : list byte) :
  (exists result : Result,
     decodeInternalFunction dataType deployedPcBytes constructorPcBytes info =
     Returned result /\
     stopOnError (Returned result) = Returned result) \/
  (decodeInternalFunction dataType deployedPcBytes constructorPcBytes info =
   Threw AssertionError /\
   ~ (toBN deployedPcBytes < 2 ^ 53 /\ toBN constructorPcBytes < 2 ^ 53)).
Proof.
  unfold decodeInternalFunction, toNumber.
  destruct (Z.ltb_spec (toBN deployedPcBytes) (2 ^ 53));
    [| right; split; [reflexivity | lia]].
  destruct (Z.ltb_spec (toBN constructorPcBytes) (2 ^ 53));
    [| right; split; [reflexivity | lia]].
  left. cbn [andThen].
  destruct (EvmInfo.internalFunctionsTable info) as [table |]; [| eauto].
  repeat
    match goal with
    | |- context [if ?b then _ else _] => destruct b
    | |- context [table !! ?pc] => destruct (table !! pc)
    end; eauto.
Qed.

End Resolvers.

(** ** Normal, permissive and strict mode *)

Ltac case_conditions :=
  repeat
    match goal with
    | |- context [if ?b then _ else _] => destruct b eqn:?
    | |- context [match Types.options ?t with _ => _ end] =>
        destruct (Types.options t) eqn:?
    end.

Section Modes.

Context `{Collaborators}.

Variables (d : Driver) (dataType : Types.Type_).
Variables (pointer : DataPointer) (info : EvmInfo.t).

Lemma decodeValue_strict (s : DriverState d) :
  run d s (decodeValue dataType pointer info strictMode) =
  let (c, s') := run d s (decodeValue dataType pointer info normal) in
  (stopOnError c, s').
Proof.
  unfold decodeValue, fromCharCodeApply. rewrite !run_tryBind.
  destruct (run d s (read pointer (EvmInfo.state info)))
    as [[bytes | e] s1]; [| reflexivity].
  cbn [DecoderMode_eqb negb andb].
  destruct dataType as
    [| bits | bits | | contractType | [length |] | | [|] | enumType
     | bits places | bits places];
    try (case_conditions; reflexivity).
  - (* contract *)
    case_conditions; try reflexivity.
    rewrite !run_bind.
    destruct (run_decodeContract d info bytes s1) as (c & s2 & ->).
    reflexivity.
  - (* external function *)
    case_conditions; try reflexivity.
    rewrite !run_bind.
    destruct (run_decodeExternalFunction d info
                (slice bytes 0 (Some (Finite ADDRESS_SIZE)))
                (slice bytes ADDRESS_SIZE
                   (Some (Finite (ADDRESS_SIZE + SELECTOR_SIZE)))) s1)
      as (s2 & [[value ->] | [-> _]]); reflexivity.
  - (* internal function *)
    case_conditions; try reflexivity.
    destruct (decodeInternalFunction_ends info (Types.function Types.internal)
                (slice bytes (- PC_SIZE) None)
                (slice bytes (- PC_SIZE * 2) (Some (Finite (- PC_SIZE)))))
      as [(result & -> & Hstop) | [-> _]]; cbn [run complete];
      [rewrite Hstop |]; reflexivity.
Qed.

Lemma decodeValue_embeds (mode : DecoderMode) (s : DriverState d) :
  mode <> strictMode ->
  (exists (result : Result) (s' : DriverState d),
     run d s (decodeValue dataType pointer info mode) =
     (Returned result, s')) \/
  (exists (e : Exn) (s' : DriverState d),
     run d s (decodeValue dataType pointer info mode) = (Threw e, s') /\
     e <> StopDecodingError /\
     ~ (1 <= PC_SIZE <= 6 /\ registryConsistent info /\
        withinArgumentsLimit d s dataType pointer info)).
Proof.
  intros Hmode.
  assert (Hstrict : DecoderMode_eqb mode strictMode = false)
    by (destruct mode; [reflexivity | reflexivity | congruence]).
  unfold decodeValue. rewrite run_tryBind, Hstrict.
  destruct (run d s (read pointer (EvmInfo.state info)))
    as [[bytes | e] s1] eqn:Hread; [| left; cbn [run]; eauto].
  destruct dataType as
    [| bits | bits | | contractType | [length |] | | [|] | enumType
     | bits places | bits places];
    try (case_conditions; left; cbn [run]; eauto; fail).
  - (* contract *)
    case_conditions; [left; cbn [run]; eauto |].
    rewrite run_bind.
    destruct (run_decodeContract d info bytes s1) as (c & s2 & ->).
    left. cbn [run]. eauto.
  - (* string *)
    unfold fromCharCodeApply. rewrite length_map.
    destruct (Z.leb_spec (Z.of_nat (length bytes)) argumentsLimit)
      as [Hshort | Hlong]; cbn [andThen complete run]; [left; eauto |].
    right. exists RangeError, s1. repeat split; [discriminate |].
    intros (_ & _ & Hlimit). specialize (Hlimit eq_refl bytes s1 Hread). lia.
  - (* external function *)
    case_conditions; [left; cbn [run]; eauto |].
    rewrite run_bind.
    destruct (run_decodeExternalFunction d info
                (slice bytes 0 (Some (Finite ADDRESS_SIZE)))
                (slice bytes ADDRESS_SIZE
                   (Some (Finite (ADDRESS_SIZE + SELECTOR_SIZE)))) s1)
      as (s2 & [[value ->] | [-> Hregistry]]).
    + left. cbn [run]. eauto.
    + right. exists TypeError, s2. repeat split; [discriminate | tauto].
  - (* internal function *)
    case_conditions; [left; cbn [run]; eauto |].
    destruct (decodeInternalFunction_ends info (Types.function Types.internal)
                (slice bytes (- PC_SIZE) None)
                (slice bytes (- PC_SIZE * 2) (Some (Finite (- PC_SIZE)))))
      as [(result & -> & _) | [-> Hlarge]]; cbn [run complete].
    + left. eauto.
    + right. exists AssertionError, s1.
      repeat split; [discriminate |]. intros [Hsize _].
      apply Hlarge, programCounter_small, Hsize.
Qed.

(** C4, as the code has it. In normal and permissive mode [decodeValue]
    never stops the decoding, and it ends with a value or an embedded
    error result whenever program counters are 1 to 6 bytes wide, the
    registry has a context for each contract it resolves, the bytes of a
    string are not more than the engine accepts as the arguments of one
    call, and the options of an enum are fewer than [2 ^ 26] (what [ltn] of
    bn.js takes). Strict mode is
    normal mode where every error result that [decodeValue] itself would
    return (a failed read, bad padding, a number out of range, enum
    options not found, fixed and ufixed) stops the decoding instead; the
    three errors of [decodeInternalFunction], which takes no mode, are
    returned as error results in strict mode too. *)
Theorem decodeValue_modes (s : DriverState d) :
  (forall mode : DecoderMode,
     mode <> strictMode ->
     (run d s (decodeValue dataType pointer info mode)).1 <>
     Threw StopDecodingError /\
     (1 <= PC_SIZE <= 6 -> registryConsistent info ->
      withinArgumentsLimit d s dataType pointer info ->
      fewOptions dataType info ->
      exists (result : Result) (s' : DriverState d),
        run d s (decodeValue dataType pointer info mode) =
        (Returned result, s'))) /\
  run d s (decodeValue dataType pointer info strictMode) =
  (let (c, s') := run d s (decodeValue dataType pointer info normal) in
   (stopOnError c, s')) /\
  (forall (result : Result) (s' : DriverState d),
     run d s (decodeValue dataType pointer info strictMode) =
     (Returned result, s') ->
     isErrorResult result = true -> fromResolver result = true).
Proof.
  split; [| split].
  - intros mode Hmode.
    destruct (decodeValue_embeds mode s Hmode)
      as [(result & s' & Hrun) | (e & s' & Hrun & He & Hnot)];
      rewrite Hrun; cbn [fst].
    + split; [discriminate | eauto].
    + split; [congruence | tauto].
  - apply decodeValue_strict.
  - intros result s' Hrun Herror. rewrite decodeValue_strict in Hrun.
    destruct (run d s (decodeValue dataType pointer info normal))
      as [[result' | e] s1]; cbn [stopOnError] in Hrun; [| discriminate].
    destruct (isErrorResult result' && negb (fromResolver result'))
      eqn:Hstop; [discriminate |].
    injection Hrun as -> _. rewrite Herror in Hstop.
    destruct (fromResolver result); [reflexivity | discriminate].
Qed.

End Modes.

Section Permissive.

Context `{Collaborators}.

Variables (d : Driver) (s : DriverState d).
Variables (pointer : DataPointer) (info : EvmInfo.t).

Let decoded (dataType : Types.Type_) : Completion Result * DriverState d :=
  run d s (decodeValue dataType pointer info permissive).

(** C2, as the code has it. Permissive mode skips the padding check of
    uint, int, address, contract and static bytes, so that these type
    classes never decode to a padding error in permissive mode. The other
    type classes are decoded in permissive mode exactly as in normal mode:
    the padding of a bool, an external function, an internal function and
    an enum is checked in every mode and a violation gives the padding
    error of the type class; the range of a bool and of an enum and the
    presence of the options of an enum are checked as well. *)
Theorem decodeValue_permissive :
  (forall dataType : Types.Type_,
     paddingCheckLooksAtMode dataType = true ->
     forall (result : Result) (s' : DriverState d),
       decoded dataType = (Returned result, s') ->
       isPaddingErrorResult result = false) /\
  (forall dataType : Types.Type_,
     paddingCheckLooksAtMode dataType = false ->
     decodeValue dataType pointer info permissive =
     decodeValue dataType pointer info normal) /\
  (forall (bytes : list byte) (s' : DriverState d),
     run d s (read pointer (EvmInfo.state info)) = (Returned bytes, s') ->
     let raw := toHexString bytes in
     (checkPaddingLeft bytes 1 = false ->
      decoded Types.bool_ =
      (Returned (BoolErrorResult Types.bool_ (BoolPaddingError raw)), s')) /\
     (checkPaddingRight bytes (ADDRESS_SIZE + SELECTOR_SIZE) = false ->
      decoded (Types.function Types.external) =
      (Returned
         (FunctionExternalErrorResult (Types.function Types.external)
            (FunctionExternalNonStackPaddingError raw)), s')) /\
     (checkPaddingLeft bytes (2 * PC_SIZE) = false ->
      decoded (Types.function Types.internal) =
      (Returned
         (FunctionInternalErrorResult (Types.function Types.internal)
            (FunctionInternalPaddingError raw)), s')) /\
     (forall (enumType : Types.EnumType) (options : list string),
        let fullType :=
          fullEnumType enumType (EvmInfo.userDefinedTypes info) in
        Types.options fullType = Some options ->
        (checkPaddingLeft bytes (ceilLog2Over8 (Z.of_nat (length options))) =
         false ->
         decoded (Types.enum enumType) =
         (Returned
            (EnumErrorResult fullType (EnumPaddingError fullType raw)), s')) /\
        (checkPaddingLeft bytes (ceilLog2Over8 (Z.of_nat (length options))) =
         true ->
         Z.of_nat (length options) <= toBN bytes ->
         decoded (Types.enum enumType) =
         (Returned
            (EnumErrorResult fullType
               (EnumOutOfRangeError fullType (toBN bytes))), s'))) /\
     (forall enumType : Types.EnumType,
        let fullType :=
          fullEnumType enumType (EvmInfo.userDefinedTypes info) in
        Types.options fullType = None ->
        decoded (Types.enum enumType) =
        (Returned
           (EnumErrorResult fullType
              (EnumNotFoundDecodingError fullType (toBN bytes))), s')) /\
     (checkPaddingLeft bytes 1 = true -> 2 <= toBN bytes ->
      decoded Types.bool_ =
      (Returned
         (BoolErrorResult Types.bool_ (BoolOutOfRangeError (toBN bytes))),
       s'))).
Proof.
  subst decoded. cbn beta. split; [| split].
  - intros dataType Hclass result s'.
    unfold decodeValue. rewrite run_tryBind.
    destruct (run d s (read pointer (EvmInfo.state info)))
      as [[bytes | e] s1]; [| intros [= <- _]; reflexivity].
    destruct dataType as
      [| bits | bits | | contractType | [length |] | | [|] | enumType
       | bits places | bits places];
      try discriminate Hclass; cbn [DecoderMode_eqb negb andb run];
      try (intros [= <- _]; reflexivity).
    rewrite run_bind.
    destruct (run_decodeContract d info bytes s1) as (c & s2 & ->).
    intros [= <- _]. reflexivity.
  - intros dataType Hclass.
    destruct dataType as [| | | | | | | [|] | | |];
      try discriminate Hclass; reflexivity.
  - intros bytes s' Hread raw. subst raw.
    split; [| split; [| split; [| split; [| split]]]].
    + intros Hpadding. after_read Hread. rewrite Hpadding. reflexivity.
    + intros Hpadding. after_read Hread. rewrite Hpadding. reflexivity.
    + intros Hpadding. after_read Hread. rewrite Hpadding. reflexivity.
    + intros enumType options fullType Hoptions.
      split; [intros Hpadding | intros Hpadding Hrange];
        after_read Hread; fold fullType; rewrite Hoptions; cbn beta iota zeta;
        rewrite Hpadding; [reflexivity |].
      replace (toBN bytes <? _) with false by (symmetry; apply Z.ltb_ge; lia).
      reflexivity.
    + intros enumType fullType Hoptions. after_read Hread.
      fold fullType. rewrite Hoptions. reflexivity.
    + intros Hpadding Hrange. after_read Hread. rewrite Hpadding.
      cbn [negb].
      replace (toBN bytes =? 0) with false by (symmetry; apply Z.eqb_neq; lia).
      replace (toBN bytes =? 1) with false by (symmetry; apply Z.eqb_neq; lia).
      reflexivity.
Qed.

End Permissive.

(** * Further properties *)

(** ** Slices that split a word *)

Lemma relativeIndex_range (len : Z) (i : Index) :
  0 <= len -> 0 <= relativeIndex len i <= len.
Proof.
  intros Hlen. unfold relativeIndex.
  destruct i as [z | |]; [destruct (Z.ltb_spec z 0) |..]; lia.
Qed.

Lemma slice_prefix {A : Type} (arr : list A) (i : Index) :
  slice arr 0 (Some i) =
  take (Z.to_nat (relativeIndex (Z.of_nat (length arr)) i)) arr.
Proof.
  unfold slice. cbn [relativeIndex]. change (0 <? 0) with false. cbn iota.
  rewrite Z.min_l by lia. rewrite Z.sub_0_r. reflexivity.
Qed.

Lemma slice_suffix {A : Type} (arr : list A) (i : Index) :
  slice arr i None =
  drop (Z.to_nat (relativeIndex (Z.of_nat (length arr)) i)) arr.
Proof.
  unfold slice.
  pose proof (relativeIndex_range (Z.of_nat (length arr)) i) as Hrange.
  apply take_ge. rewrite length_drop. lia.
Qed.

Lemma slice_partition {A : Type} (arr : list A) (i : Index) :
  slice arr 0 (Some i) ++ slice arr i None = arr.
Proof. rewrite slice_prefix, slice_suffix. apply take_drop. Qed.

Lemma toBN_app (high low : list byte) :
  toBN (high ++ low) = toBN high * 256 ^ Z.of_nat (length low) + toBN low.
Proof.
  unfold toBN at 1. rewrite fold_left_app. fold (toBN high).
  apply toBN_from.
Qed.

Lemma isZeroByte_spec (b : byte) : isZeroByte b = true <-> b = x00.
Proof.
  unfold isZeroByte. split; [apply Byte.byte_dec_bl | apply Byte.byte_dec_lb].
Qed.

Lemma zero_bytes_repeat (padding : list byte) :
  forallb isZeroByte padding = true <->
  padding = repeat x00 (length padding).
Proof.
  induction padding as [| b padding IH]; cbn [forallb length repeat].
  - tauto.
  - rewrite andb_true_iff, isZeroByte_spec, IH. split.
    + intros [-> <-]. reflexivity.
    + intros [= -> Hrest]. auto.
Qed.

Lemma to_N_zero (b : byte) : Byte.to_N b = 0%N -> b = x00.
Proof.
  intros Hzero. pose proof (Byte.of_to_N b) as Hof. rewrite Hzero in Hof.
  cbn in Hof. congruence.
Qed.

Lemma zero_bytes_toBN (padding : list byte) :
  forallb isZeroByte padding = true <-> toBN padding = 0.
Proof.
  induction padding as [| b padding IH]; cbn [forallb].
  - split; reflexivity.
  - rewrite andb_true_iff, isZeroByte_spec, IH, toBN_cons.
    pose proof (toBN_range padding). pose proof (Byte.to_N_bounded b).
    assert (0 < 256 ^ Z.of_nat (length padding))
      by (apply Z.pow_pos_nonneg; lia).
    split.
    + intros [-> ->]. cbn. lia.
    + intros Hsum. assert (Byte.to_N b = 0%N) by nia.
      split; [apply to_N_zero; assumption | nia].
Qed.

(** ** The padding checks *)

Lemma value_length {A : Type} (arr : list A) (n : Z) :
  1 <= n ->
  Z.of_nat (length (slice arr (- n) None)) = Z.min (Z.of_nat (length arr)) n.
Proof.
  intros Hn. rewrite slice_length. unfold relativeIndex.
  replace (- n <? 0) with true by (symmetry; apply Z.ltb_lt; lia). lia.
Qed.

(** [checkPaddingLeft] accepts exactly the words that are zero bytes
    followed by the bytes that [slice(-length)] keeps, whatever the length:
    also a length of zero, where nothing is checked, a negative one and an
    infinite one. *)
Theorem checkPaddingLeft_shape (bytes : list byte) (length_ : Index) :
  let value := slice bytes (neg length_) None in
  checkPaddingLeft bytes length_ = true <->
  bytes = repeat x00 (length bytes - length value) ++ value.
Proof.
  intros value. unfold checkPaddingLeft.
  pose proof (slice_partition bytes (neg length_)) as Hsplit.
  fold value in Hsplit.
  set (padding := slice bytes 0 (Some (neg length_))) in *.
  assert (Hlen : length padding = (length bytes - length value)%nat).
  { rewrite <- Hsplit at 1. rewrite length_app. lia. }
  rewrite zero_bytes_repeat, Hlen. split.
  - intros Hzero. rewrite <- Hzero. symmetry. exact Hsplit.
  - intros Hshape. rewrite <- Hsplit in Hshape at 1.
    apply app_inv_tail in Hshape. exact Hshape.
Qed.

(** [checkPaddingRight] accepts exactly the words that are the bytes that
    [slice(0, length)] keeps followed by zero bytes, whatever the length. *)
Theorem checkPaddingRight_shape (bytes : list byte) (length_ : Index) :
  let kept := slice bytes 0 (Some length_) in
  checkPaddingRight bytes length_ = true <->
  bytes = kept ++ repeat x00 (length bytes - length kept).
Proof.
  intros kept. unfold checkPaddingRight.
  pose proof (slice_partition bytes length_) as Hsplit. fold kept in Hsplit.
  set (padding := slice bytes length_ None) in *.
  assert (Hlen : length padding = (length bytes - length kept)%nat).
  { rewrite <- Hsplit at 1. rewrite length_app. lia. }
  rewrite zero_bytes_repeat, Hlen. split.
  - intros Hzero. rewrite <- Hzero. symmetry. exact Hsplit.
  - intros Hshape. rewrite <- Hsplit in Hshape at 1.
    apply app_inv_head in Hshape. exact Hshape.
Qed.

(** The word as a number, split at the last [n] bytes. *)
Lemma toBN_split (bytes : list byte) (n : Z) :
  1 <= n ->
  let padding := slice bytes 0 (Some (Finite (- n))) in
  let value := slice bytes (- n) None in
  toBN bytes = toBN padding * 256 ^ Z.of_nat (length value) + toBN value /\
  (padding = [] \/ Z.of_nat (length value) = n).
Proof.
  intros Hn padding value.
  pose proof (slice_partition bytes (Finite (- n))) as Hsplit.
  fold padding value in Hsplit. split.
  - rewrite <- Hsplit at 1. apply toBN_app.
  - pose proof (value_length bytes n Hn) as Hvalue. fold value in Hvalue.
    destruct (Z.le_ge_cases n (Z.of_nat (length bytes))); [right; lia |].
    left. apply nil_length_inv.
    assert (length (padding ++ value) = length bytes)
      by (rewrite Hsplit; reflexivity).
    rewrite length_app in *. lia.
Qed.

Lemma paddingLeft_fits (bytes : list byte) (n : Z) :
  1 <= n ->
  checkPaddingLeft bytes n = true <-> toBN bytes < 256 ^ n.
Proof.
  intros Hn. unfold checkPaddingLeft. cbn [neg].
  destruct (toBN_split bytes n Hn) as [Hnumber Hcases].
  set (padding := slice bytes 0 (Some (Finite (- n)))) in *.
  set (value := slice bytes (- n) None) in *.
  pose proof (toBN_range value) as Hvalue.
  pose proof (toBN_range padding) as Hpadding.
  pose proof (value_length bytes n Hn) as Hlength. fold value in Hlength.
  assert (256 ^ Z.of_nat (length value) <= 256 ^ n)
    by (apply Z.pow_le_mono_r; lia).
  rewrite zero_bytes_toBN. split.
  - intros Hzero. rewrite Hzero in Hnumber. lia.
  - intros Hsmall. destruct Hcases as [-> | Hfull]; [reflexivity |].
    rewrite Hfull in *. nia.
Qed.

(** Keeping the last [n] bytes of a word is reducing its number modulo
    [256 ^ n]. *)
Lemma truncation_modulo (bytes : list byte) (n : Z) :
  1 <= n ->
  toBN (slice bytes (- n) None) = toBN bytes mod 256 ^ n.
Proof.
  intros Hn. destruct (toBN_split bytes n Hn) as [Hnumber Hcases].
  set (padding := slice bytes 0 (Some (Finite (- n)))) in *.
  set (value := slice bytes (- n) None) in *.
  pose proof (toBN_range value) as Hvalue.
  pose proof (value_length bytes n Hn) as Hlength. fold value in Hlength.
  assert (256 ^ Z.of_nat (length value) <= 256 ^ n)
    by (apply Z.pow_le_mono_r; lia).
  destruct Hcases as [Hempty | Hfull].
  - rewrite Hempty in Hnumber. cbn in Hnumber. rewrite Hnumber.
    symmetry. apply Z.mod_small. lia.
  - rewrite Hnumber, Hfull in *. rewrite Z.add_comm, Z.mod_add by lia.
    symmetry. apply Z.mod_small. lia.
Qed.

Lemma to_N_ff (b : byte) : Byte.to_N b = 255%N -> b = xff.
Proof.
  intros Hff. pose proof (Byte.of_to_N b) as Hof. rewrite Hff in Hof.
  cbn in Hof. congruence.
Qed.

Lemma ff_bytes_toBN (padding : list byte) :
  forallb (fun paddingByte => Byte.eqb paddingByte xff) padding = true <->
  toBN padding = 256 ^ Z.of_nat (length padding) - 1.
Proof.
  induction padding as [| b padding IH]; cbn [forallb].
  - split; reflexivity.
  - rewrite andb_true_iff, IH, toBN_cons. cbn [length].
    rewrite Nat2Z.inj_succ, Z.pow_succ_r by lia.
    pose proof (toBN_range padding). pose proof (Byte.to_N_bounded b).
    assert (0 < 256 ^ Z.of_nat (length padding))
      by (apply Z.pow_pos_nonneg; lia).
    split.
    + intros [Hb ->]. apply Byte.byte_dec_bl in Hb. subst b. cbn. lia.
    + intros Hsum. assert (Byte.to_N b = 255%N) by nia.
      split; [apply Byte.byte_dec_lb, to_N_ff; assumption | nia].
Qed.

Lemma signBit_cases (bytes : list byte) :
  signBit bytes = 0%N \/ signBit bytes = 128%N.
Proof.
  destruct bytes as [| b bytes]; [left; reflexivity |].
  cbn [signBit]. destruct b; cbn; auto.
Qed.

(** [checkPaddingSigned] accepts exactly the words that stand for the same
    number, in two's complement, as the bytes that [slice(-length)] keeps. *)
Theorem checkPaddingSigned_sign_extension (bytes : list byte)
    (length_ : Index) :
  checkPaddingSigned bytes length_ = true <->
  twosComplement bytes = twosComplement (slice bytes (neg length_) None).
Proof.
  unfold checkPaddingSigned.
  pose proof (slice_partition bytes (neg length_)) as Hsplit.
  set (padding := slice bytes 0 (Some (neg length_))) in *.
  set (value := slice bytes (neg length_) None) in *.
  destruct padding as [| p padding].
  { cbn [app] in Hsplit. rewrite Hsplit. cbn [forallb]. tauto. }
  rewrite <- Hsplit. unfold twosComplement.
  rewrite toBN_app, length_app, Nat2Z.inj_add, Z.pow_add_r by lia.
  pose proof (toBN_range value) as Hvalue.
  pose proof (toBN_range (p :: padding)) as Hpadding.
  assert (Hunit : 0 < 256 ^ Z.of_nat (length value))
    by (apply Z.pow_pos_nonneg; lia).
  cbn [app signBit].
  destruct (signBit_cases value) as [Hsign | Hsign]; rewrite Hsign;
    cbn [N.eqb Pos.eqb].
  - fold isZeroByte. rewrite zero_bytes_toBN. split.
    + intros Hzero. rewrite Hzero.
      assert (p = x00) as ->.
      { apply zero_bytes_toBN in Hzero. cbn [forallb] in Hzero.
        apply andb_true_iff in Hzero as [Hp _].
        apply isZeroByte_spec in Hp. exact Hp. }
      change (N.land (Byte.to_N x00) 128 =? 0)%N with true. cbn iota. lia.
    + destruct (N.land (Byte.to_N p) 128 =? 0)%N; nia.
  - rewrite ff_bytes_toBN. split.
    + intros Hff. rewrite Hff.
      assert (p = xff) as ->.
      { apply ff_bytes_toBN in Hff. cbn [forallb] in Hff.
        apply andb_true_iff in Hff as [Hp _].
        apply Byte.byte_dec_bl in Hp. exact Hp. }
      change (N.land (Byte.to_N xff) 128 =? 0)%N with false. cbn iota. nia.
    + destruct (N.land (Byte.to_N p) 128 =? 0)%N; nia.
Qed.

(** For a length of at least one byte, [checkPaddingLeft] accepts exactly the
    words whose number fits into that many bytes, and the last bytes of a
    word it accepts stand for the same number as the word: cutting the
    padding off after the check loses nothing. (At the length zero it accepts
    every word.) *)
Theorem checkPaddingLeft_numeric (bytes : list byte) (n : Z) :
  1 <= n ->
  (checkPaddingLeft bytes n = true <-> toBN bytes < 256 ^ n) /\
  (checkPaddingLeft bytes n = true ->
   toBN (slice bytes (- n) None) = toBN bytes).
Proof.
  intros Hn. split; [apply paddingLeft_fits; exact Hn |].
  intros Hpadding. apply paddingLeft_fits in Hpadding; [| exact Hn].
  rewrite truncation_modulo by exact Hn.
  pose proof (toBN_range bytes). apply Z.mod_small. lia.
Qed.

(** ** Numbers read from a word *)

Section Numbers.

Context `{Collaborators}.

Variables (d : Driver) (s s' : DriverState d).
Variables (pointer : DataPointer) (info : EvmInfo.t).

(** In normal and strict mode a uint of [n >= 1] bytes decodes to the number
    of the whole word when that number is below [256 ^ n], and to a padding
    error (the stop of the decoding in strict mode) otherwise. *)
Theorem decodeValue_uint_checked (bits : Z) (bytes : list byte)
    (mode : DecoderMode) :
  run d s (read pointer (EvmInfo.state info)) = (Returned bytes, s') ->
  1 <= bits ÷ 8 ->
  mode <> permissive ->
  run d s (decodeValue (Types.uint bits) pointer info mode) =
  if toBN bytes <? 256 ^ (bits ÷ 8)
  then (Returned (UintValue (Types.uint bits) (toBN bytes)), s')
  else
    match mode with
    | strictMode => (Threw StopDecodingError, s')
    | _ =>
        (Returned
           (UintErrorResult (Types.uint bits)
              (UintPaddingError (toHexString bytes))), s')
    end.
Proof.
  intros Hread Hwidth Hmode. after_read Hread.
  replace (DecoderMode_eqb mode permissive) with false
    by (destruct mode; [reflexivity | congruence | reflexivity]).
  cbn [negb andb]. rewrite Z.quot_opp_l by lia.
  rewrite truncation_modulo by exact Hwidth.
  pose proof (paddingLeft_fits bytes (bits ÷ 8) Hwidth) as Hpadding.
  pose proof (toBN_range bytes) as [Hlow _].
  destruct (Z.ltb_spec (toBN bytes) (256 ^ (bits ÷ 8))) as [Hfits | Hlarge].
  - replace (checkPaddingLeft bytes (bits ÷ 8)) with true
      by (symmetry; apply Hpadding; exact Hfits).
    cbn [negb run]. rewrite Z.mod_small by lia. reflexivity.
  - replace (checkPaddingLeft bytes (bits ÷ 8)) with false.
    + destruct mode; [reflexivity | congruence | reflexivity].
    + symmetry. apply not_true_is_false. rewrite Hpadding. lia.
Qed.

(** In permissive mode a uint of [n >= 1] bytes decodes to the number of the
    word modulo [256 ^ n]. *)
Theorem decodeValue_uint_permissive (bits : Z) (bytes : list byte) :
  run d s (read pointer (EvmInfo.state info)) = (Returned bytes, s') ->
  1 <= bits ÷ 8 ->
  run d s (decodeValue (Types.uint bits) pointer info permissive) =
  (Returned
     (UintValue (Types.uint bits) (toBN bytes mod 256 ^ (bits ÷ 8))), s').
Proof.
  intros Hread Hwidth. after_read Hread. cbn [DecoderMode_eqb negb andb run].
  rewrite Z.quot_opp_l by lia. rewrite truncation_modulo by exact Hwidth.
  reflexivity.
Qed.

(** A word that decodes to a number as a uint of some width decodes to the
    same number as a uint of any greater width, in normal and strict mode. *)
Theorem decodeValue_uint_widening (narrow wide : Z) (bytes : list byte)
    (mode : DecoderMode) (value : Z) (s'' : DriverState d) :
  run d s (read pointer (EvmInfo.state info)) = (Returned bytes, s') ->
  1 <= narrow ÷ 8 <= wide ÷ 8 ->
  mode <> permissive ->
  run d s (decodeValue (Types.uint narrow) pointer info mode) =
  (Returned (UintValue (Types.uint narrow) value), s'') ->
  run d s (decodeValue (Types.uint wide) pointer info mode) =
  (Returned (UintValue (Types.uint wide) value), s'').
Proof.
  intros Hread Hwidths Hmode. unfold decodeValue.
  rewrite !run_tryBind, Hread. cbn beta iota.
  replace (DecoderMode_eqb mode permissive) with false
    by (destruct mode; [reflexivity | congruence | reflexivity]).
  cbn [negb andb]. rewrite !Z.quot_opp_l by lia.
  rewrite !truncation_modulo by lia.
  pose proof (paddingLeft_fits bytes (narrow ÷ 8) ltac:(lia)) as Hnarrow.
  pose proof (paddingLeft_fits bytes (wide ÷ 8) ltac:(lia)) as Hwide.
  pose proof (toBN_range bytes) as [Hlow _].
  assert (256 ^ (narrow ÷ 8) <= 256 ^ (wide ÷ 8))
    by (apply Z.pow_le_mono_r; lia).
  destruct (checkPaddingLeft bytes (narrow ÷ 8)) eqn:Hcheck; cbn [negb].
  - assert (Hfits : toBN bytes < 256 ^ (narrow ÷ 8))
      by (apply Hnarrow; reflexivity).
    replace (checkPaddingLeft bytes (wide ÷ 8)) with true
      by (symmetry; apply Hwide; lia).
    cbn [negb run]. rewrite !Z.mod_small by lia.
    intros [= <- <-]. reflexivity.
  - destruct mode; discriminate.
Qed.

(** A bool is decoded from the number of the whole word alone, in the same
    way in every mode but for the stop in strict mode: 0 and 1 are the two
    values, 2 to 255 are out of range, and from 256 on the padding is
    wrong. *)
Theorem decodeValue_bool_numeric (bytes : list byte) (mode : DecoderMode) :
  run d s (read pointer (EvmInfo.state info)) = (Returned bytes, s') ->
  let numeric := toBN bytes in
  run d s (decodeValue Types.bool_ pointer info mode) =
  if numeric =? 0 then (Returned (BoolValue Types.bool_ false), s')
  else if numeric =? 1 then (Returned (BoolValue Types.bool_ true), s')
  else
    match mode with
    | strictMode => (Threw StopDecodingError, s')
    | _ =>
        if numeric <? 256
        then
          (Returned
             (BoolErrorResult Types.bool_ (BoolOutOfRangeError numeric)), s')
        else
          (Returned
             (BoolErrorResult Types.bool_
                (BoolPaddingError (toHexString bytes))), s')
    end.
Proof.
  intros Hread numeric. subst numeric. after_read Hread.
  pose proof (paddingLeft_fits bytes 1 ltac:(lia)) as Hpadding.
  change (256 ^ 1) with 256 in Hpadding.
  destruct (Z.ltb_spec (toBN bytes) 256) as [Hfits | Hlarge].
  - replace (checkPaddingLeft bytes 1) with true
      by (symmetry; apply Hpadding; exact Hfits).
    cbn [negb].
    destruct (toBN bytes =? 0); [reflexivity |].
    destruct (toBN bytes =? 1); [reflexivity |].
    destruct mode; reflexivity.
  - replace (checkPaddingLeft bytes 1) with false
      by (symmetry; apply not_true_is_false; rewrite Hpadding; lia).
    cbn [negb].
    replace (toBN bytes =? 0) with false by (symmetry; apply Z.eqb_neq; lia).
    replace (toBN bytes =? 1) with false by (symmetry; apply Z.eqb_neq; lia).
    destruct mode; reflexivity.
Qed.

End Numbers.

(** ** Enums *)


Section Enums.

Context `{Collaborators}.

Variables (d : Driver) (s s' : DriverState d).
Variables (pointer : DataPointer) (info : EvmInfo.t).


(** An enum with an empty list of options: the width of the padding is minus
    infinity, so that the whole word is checked as padding. A word of zero
    bytes is out of range and any other word is a padding error; there is
    never a value. *)
Theorem decodeValue_enum_no_options (enumType : Types.EnumType)
    (bytes : list byte) (mode : DecoderMode) :
  run d s (read pointer (EvmInfo.state info)) = (Returned bytes, s') ->
  let fullType := fullEnumType enumType (EvmInfo.userDefinedTypes info) in
  Types.options fullType = Some [] ->
  run d s (decodeValue (Types.enum enumType) pointer info mode) =
  match mode with
  | strictMode => (Threw StopDecodingError, s')
  | _ =>
      if toBN bytes =? 0
      then
        (Returned
           (EnumErrorResult fullType (EnumOutOfRangeError fullType 0)), s')
      else
        (Returned
           (EnumErrorResult fullType
              (EnumPaddingError fullType (toHexString bytes))), s')
  end.
Proof.
  intros Hread fullType Hoptions.
  after_read Hread. fold fullType. rewrite Hoptions.
  cbn [length]. change (Z.of_nat 0) with 0.
  change (ceilLog2Over8 0) with NegInfinity.
  pose proof (toBN_range bytes) as [Hlow _].
  replace (toBN bytes <? 0) with false by (symmetry; apply Z.ltb_ge; lia).
  assert (Hwhole : slice bytes 0 (Some (neg NegInfinity)) = bytes).
  { rewrite slice_prefix. cbn [neg relativeIndex].
    rewrite Nat2Z.id. apply firstn_all. }
  unfold checkPaddingLeft. rewrite Hwhole.
  pose proof (zero_bytes_toBN bytes) as Hzero.
  destruct (Z.eqb_spec (toBN bytes) 0) as [Hnumber | Hnumber].
  - replace (forallb isZeroByte bytes) with true
      by (symmetry; apply Hzero; exact Hnumber).
    rewrite Hnumber. destruct mode; reflexivity.
  - replace (forallb isZeroByte bytes) with false
      by (symmetry; apply not_true_is_false; rewrite Hzero; exact Hnumber).
    destruct mode; reflexivity.
Qed.

End Enums.

(** ** Permissive mode against normal mode *)

Section Agreement.

Context `{Collaborators}.

Variables (d : Driver) (s : DriverState d) (dataType : Types.Type_).
Variables (pointer : DataPointer) (info : EvmInfo.t).

Lemma normal_result_in_permissive (c : Completion Result)
    (s' : DriverState d) :
  run d s (decodeValue dataType pointer info normal) = (c, s') ->
  (forall result : Result,
     c = Returned result -> isPaddingErrorResult result = false) ->
  run d s (decodeValue dataType pointer info permissive) = (c, s').
Proof.
  unfold decodeValue. rewrite !run_tryBind.
  destruct (run d s (read pointer (EvmInfo.state info)))
    as [[bytes | e] s1]; [| intros Hnormal _; exact Hnormal].
  cbn [DecoderMode_eqb negb andb].
  destruct dataType as
    [| bits | bits | | contractType | [length |] | | [|] | enumType
     | bits places | bits places];
    try (intros Hnormal _; exact Hnormal).
  all: match goal with
       | |- context [if negb ?check then _ else _] => destruct check
       end; cbn [negb run]; intros Hnormal Hvalue;
       [exact Hnormal | injection Hnormal as <- _].
  all: discriminate (Hvalue _ eq_refl).
Qed.

(** Permissive mode and normal mode end in the same way, with the same
    value, error or exception and the same requests answered, unless normal
    mode ends with a padding error. *)
Theorem permissive_agrees_with_normal :
  run d s (decodeValue dataType pointer info permissive) =
  run d s (decodeValue dataType pointer info normal) \/
  exists (result : Result) (s' : DriverState d),
    run d s (decodeValue dataType pointer info normal) =
    (Returned result, s') /\
    isPaddingErrorResult result = true.
Proof.
  unfold decodeValue. rewrite !run_tryBind.
  destruct (run d s (read pointer (EvmInfo.state info)))
    as [[bytes | e] s1]; [| left; reflexivity].
  cbn [DecoderMode_eqb negb andb].
  destruct dataType as
    [| bits | bits | | contractType | [length |] | | [|] | enumType
     | bits places | bits places];
    try (left; reflexivity).
  all: match goal with
       | |- context [if negb ?check then _ else _] => destruct check
       end; cbn [negb]; [left; reflexivity | right].
  all: eexists _, _; split; reflexivity.
Qed.

Lemma padding_error_stops (result : Result) :
  isPaddingErrorResult result = true ->
  isErrorResult result && negb (fromResolver result) = true.
Proof.
  destruct result as
    [| | ? e | | ? e | | ? e | | ? e | | ? e | | ? e | | | ? e | | ? e | | ? e
     | ? e | ? e];
    try discriminate; destruct e; try discriminate; reflexivity.
Qed.

(** What strict mode returns, every mode returns: when the decoding in
    strict mode ends with a result, the decoding in normal mode and in
    permissive mode ends with the same result. *)
Theorem strict_result_in_every_mode (result : Result) (s' : DriverState d) :
  run d s (decodeValue dataType pointer info strictMode) =
  (Returned result, s') ->
  run d s (decodeValue dataType pointer info normal) = (Returned result, s') /\
  run d s (decodeValue dataType pointer info permissive) =
  (Returned result, s').
Proof.
  rewrite decodeValue_strict. intros Hstrict.
  destruct (run d s (decodeValue dataType pointer info normal))
    as [[result' | e] s1] eqn:Hnormal; cbn [stopOnError] in Hstrict;
    [| discriminate].
  destruct (isErrorResult result' && negb (fromResolver result')) eqn:Hstop;
    [discriminate |].
  injection Hstrict as -> ->. split; [reflexivity |].
  apply (normal_result_in_permissive _ _ Hnormal).
  intros result' [= <-].
  destruct (isPaddingErrorResult result) eqn:Hpadded; [| reflexivity].
  rewrite (padding_error_stops result Hpadded) in Hstop. discriminate.
Qed.

End Agreement.

(** ** Slices next to each other *)

Lemma slice_middle {A : Type} (arr : list A) (i j : Index) :
  let len := Z.of_nat (length arr) in
  slice arr i (Some j) =
  take (Z.to_nat (relativeIndex len j - relativeIndex len i))
    (drop (Z.to_nat (relativeIndex len i)) arr).
Proof. reflexivity. Qed.

Lemma slice_then_suffix {A : Type} (arr : list A) (i j : Index) :
  let len := Z.of_nat (length arr) in
  relativeIndex len i <= relativeIndex len j ->
  slice arr i (Some j) ++ slice arr j None = slice arr i None.
Proof.
  intros len Horder. rewrite slice_middle, !slice_suffix. fold len.
  pose proof (relativeIndex_range len i ltac:(lia)).
  pose proof (relativeIndex_range len j ltac:(lia)).
  replace (Z.to_nat (relativeIndex len j)) with
    (Z.to_nat (relativeIndex len i) +
     Z.to_nat (relativeIndex len j - relativeIndex len i))%nat by lia.
  rewrite <- drop_drop. apply take_drop.
Qed.


Section Requests.

Context `{Carriers}.

Lemma run_complete {R : Type} (d : Driver) (s : DriverState d)
    (c : Completion R) :
  run d s (complete c) = (c, s).
Proof. destruct c; reflexivity. Qed.

Lemma requests_tryBind {A R : Type} (d : Driver) (g : Generator A)
    (body : A -> Generator R) (handler : Exn -> Generator R) :
  forall s,
    requests d s (tryBind g body handler) =
    requests d s g ++
    match run d s g with
    | (Returned a, s') => requests d s' (body a)
    | (Threw e, s') => requests d s' (handler e)
    end.
Proof.
  induction g as [a | e | request resume IH]; intros s;
    cbn [tryBind requests run app]; try reflexivity.
  destruct (respond d s request) as [response s']. rewrite IH. reflexivity.
Qed.

End Requests.

Section Suspensions.

Context `{Collaborators}.

Variables (d : Driver) (pointer : DataPointer) (info : EvmInfo.t).

Lemma requests_decodeContract (addressBytes : list byte)
    (s : DriverState d) :
  requests d s (decodeContract addressBytes info) =
  [CodeRequest (toAddress addressBytes)].
Proof.
  unfold decodeContract. cbn [requests].
  destruct (respond d s _) as [codeBytes s'].
  destruct (findDecoderContext _ _) as [context |];
    [destruct (DecoderContext.contractName context) |]; reflexivity.
Qed.

(** [decodeContract] makes one request, for the code at the address that
    [toAddress] gives, and returns a contract at that address: it never
    throws. *)
Theorem decodeContract_one_request (addressBytes : list byte)
    (s : DriverState d) :
  requests d s (decodeContract addressBytes info) =
  [CodeRequest (toAddress addressBytes)] /\
  exists (contract : ContractValueInfo) (s' : DriverState d),
    run d s (decodeContract addressBytes info) = (Returned contract, s') /\
    match contract with
    | ContractValueInfoKnown address _ | ContractValueInfoUnknown address =>
        address = toAddress addressBytes
    end.
Proof.
  unfold decodeContract. cbn [requests run].
  destruct (respond d s _) as [codeBytes s'].
  destruct (findDecoderContext _ _) as [context |];
    [destruct (DecoderContext.contractName context) |];
    (split; [reflexivity | eexists _, _; split; reflexivity]).
Qed.

Lemma requests_decodeExternalFunction (addressBytes selectorBytes : list byte)
    (s : DriverState d) :
  requests d s (decodeExternalFunction addressBytes selectorBytes info) =
  [CodeRequest (toAddress addressBytes)].
Proof.
  unfold decodeExternalFunction, bind. rewrite requests_tryBind.
  rewrite requests_decodeContract.
  destruct (run_decodeContract d info addressBytes s) as (contract & s' & ->).
  destruct contract as [address class | address]; [| reflexivity].
  cbn beta iota. destruct (List.find _ _) as [context |]; [| reflexivity].
  destruct (DecoderContext.abi context) as [abi |]; [| reflexivity].
  destruct (abi !! _); reflexivity.
Qed.

(** Besides the requests of [read], [decodeValue] makes no request, but for
    a contract and an external function, where it may go on with one request
    for the code of an address. *)
Theorem decodeValue_requests (dataType : Types.Type_) (mode : DecoderMode)
    (s : DriverState d) :
  (resolvesContract dataType = false ->
   requests d s (decodeValue dataType pointer info mode) =
   requests d s (read pointer (EvmInfo.state info))) /\
  exists extra : list DecoderRequest,
    requests d s (decodeValue dataType pointer info mode) =
    requests d s (read pointer (EvmInfo.state info)) ++ extra /\
    (extra = [] \/ exists address : string, extra = [CodeRequest address]).
Proof.
  unfold decodeValue, fromCharCodeApply. rewrite requests_tryBind.
  destruct (run d s (read pointer (EvmInfo.state info)))
    as [[bytes | e] s1].
  2: { split; [intros _ |];
       [| exists []; split; [| left; reflexivity]];
       destruct (DecoderMode_eqb mode strictMode); cbn [requests];
       rewrite ?app_nil_r; reflexivity. }
  match goal with
  | |- context [requests d s1 ?g] => set (rest := requests d s1 g)
  end.
  assert (Hrest :
    (resolvesContract dataType = false -> rest = []) /\
    (rest = [] \/ exists address : string, rest = [CodeRequest address])).
  { subst rest.
    destruct dataType as
      [| bits | bits | | contractType | [length |] | | [|] | enumType
       | bits places | bits places];
      cbn [resolvesContract];
      try (assert (Hnone : forall A B : Prop, A -> (false = false -> A) /\
                                               (A \/ B)) by tauto;
           apply Hnone; case_conditions; reflexivity).
    - (* contract *)
      split; [intros [=] |].
      case_conditions; try (left; reflexivity). right.
      exists (toAddress bytes).
      unfold bind. rewrite requests_tryBind.
      rewrite requests_decodeContract.
      destruct (run_decodeContract d info bytes s1) as (contract & s2 & ->).
      reflexivity.
    - (* external function *)
      split; [intros [=] |].
      case_conditions; try (left; reflexivity). right.
      exists (toAddress (slice bytes 0 (Some (Finite ADDRESS_SIZE)))).
      unfold bind at 1. rewrite requests_tryBind.
      rewrite requests_decodeExternalFunction.
      destruct (run d s1 _) as [[value | e] s2]; reflexivity.
    - (* internal function *)
      split; [intros _ | left]; case_conditions; try reflexivity;
        destruct (decodeInternalFunction _ _ _ _); reflexivity. }
  destruct Hrest as [Hnone Hsome]. split.
  - intros Hclass. rewrite (Hnone Hclass). apply app_nil_r.
  - exists rest. split; [reflexivity | exact Hsome].
Qed.

End Suspensions.

(** ** Function pointers *)

Section Pointers.

Context `{Collaborators}.

Variables (d : Driver) (s s' : DriverState d).
Variables (pointer : DataPointer) (info : EvmInfo.t).

(** An internal function pointer whose padding is right is resolved from the
    two program counters that the number of the word splits into: the
    deployed counter is the number modulo [256 ^ PC_SIZE], the constructor
    counter is the quotient. *)
Theorem decodeValue_internal_function_counters (bytes : list byte)
    (mode : DecoderMode) :
  run d s (read pointer (EvmInfo.state info)) = (Returned bytes, s') ->
  1 <= PC_SIZE ->
  checkPaddingLeft bytes (2 * PC_SIZE) = true ->
  exists deployedPcBytes constructorPcBytes : list byte,
    toBN deployedPcBytes = toBN bytes mod 256 ^ PC_SIZE /\
    toBN constructorPcBytes = toBN bytes / 256 ^ PC_SIZE /\
    run d s
      (decodeValue (Types.function Types.internal) pointer info mode) =
    (decodeInternalFunction (Types.function Types.internal) deployedPcBytes
       constructorPcBytes info, s').
Proof.
  intros Hread Hsize Hpadding.
  exists (slice bytes (- PC_SIZE) None),
    (slice bytes (- PC_SIZE * 2) (Some (Finite (- PC_SIZE)))).
  split; [apply truncation_modulo; exact Hsize |].
  split.
  - set (deployed := slice bytes (- PC_SIZE) None).
    set (constructor :=
           slice bytes (- PC_SIZE * 2) (Some (Finite (- PC_SIZE)))).
    assert (Hboth :
      constructor ++ deployed = slice bytes (- (2 * PC_SIZE)) None).
    { subst constructor deployed.
      replace (- PC_SIZE * 2) with (- (2 * PC_SIZE)) by lia.
      apply slice_then_suffix. unfold relativeIndex.
      replace (- (2 * PC_SIZE) <? 0) with true
        by (symmetry; apply Z.ltb_lt; lia).
      replace (- PC_SIZE <? 0) with true by (symmetry; apply Z.ltb_lt; lia).
      lia. }
    assert (Hnumber : toBN (constructor ++ deployed) = toBN bytes).
    { rewrite Hboth, truncation_modulo by lia.
      apply Z.mod_small. pose proof (toBN_range bytes).
      apply paddingLeft_fits in Hpadding; lia. }
    rewrite toBN_app in Hnumber.
    pose proof (value_length bytes PC_SIZE Hsize) as Hdeployed.
    fold deployed in Hdeployed.
    pose proof (toBN_range deployed) as Hlow.
    pose proof (toBN_range constructor) as Hhigh.
    destruct (Z.le_ge_cases PC_SIZE (Z.of_nat (length bytes)))
      as [Hlong | Hshort].
    + rewrite Z.min_r in Hdeployed by lia. rewrite Hdeployed in *.
      apply (Z.div_unique _ _ _ (toBN deployed)); lia.
    + assert (Hempty : constructor = []).
      { apply nil_length_inv. apply Nat2Z.inj. subst constructor.
        rewrite slice_length. unfold relativeIndex.
        replace (- PC_SIZE * 2 <? 0) with true
          by (symmetry; apply Z.ltb_lt; lia).
        replace (- PC_SIZE <? 0) with true
          by (symmetry; apply Z.ltb_lt; lia).
        lia. }
      rewrite Hempty in *. cbn in Hnumber. change (toBN []) with 0.
      symmetry. apply Z.div_small.
      assert (256 ^ Z.of_nat (length deployed) <= 256 ^ PC_SIZE)
        by (apply Z.pow_le_mono_r; lia).
      lia.
  - after_read Hread. rewrite Hpadding. cbn [negb]. apply run_complete.
Qed.


End Pointers.

(** ** The properties at concrete words *)

#[local] Existing Instances Sample.carriers Sample.collaborators.

Lemma sample_registryConsistent (table : option (gmap Z FunctionEntry.t)) :
  registryConsistent (Sample.info table).
Proof.
  intros code context Hfind _. exists Sample.token.
  change (Sample.contextOfCode [("0xc0de", Sample.token)] code = Some context)
    in Hfind.
  unfold Sample.contextOfCode in Hfind. cbn [List.find fst] in Hfind.
  destruct (String.eqb "0xc0de" code); [| discriminate].
  injection Hfind as <-. reflexivity.
Qed.

Lemma decodeValue_uint8_words_witness :
  run Sample.driver tt
    (decodeValue (Types.uint 8) (Some (word 31 [xff])) (Sample.info None)
       strictMode) =
  (Returned (UintValue (Types.uint 8) 255), tt) /\
  run Sample.driver tt
    (decodeValue (Types.uint 8) (Some (word 30 [x01; xff])) (Sample.info None)
       permissive) =
  (Returned (UintValue (Types.uint 8) 255), tt).
Proof.
  split.
  - exact (proj1
             (decodeValue_uint8_words Sample.driver tt tt
                (Some (word 31 [xff])) (Sample.info None) (word 31 [xff])
                eq_refl)
             eq_refl strictMode).
  - exact (proj2 (proj2
             (proj2
                (decodeValue_uint8_words Sample.driver tt tt
                   (Some (word 30 [x01; xff])) (Sample.info None)
                   (word 30 [x01; xff]) eq_refl)
                eq_refl))).
Defined.

Lemma decodeValue_bool_two_witness :
  run Sample.driver tt
    (decodeValue Types.bool_ (Some (word 31 [x02])) (Sample.info None)
       permissive) =
  (Returned (BoolErrorResult Types.bool_ (BoolOutOfRangeError 2)), tt).
Proof.
  exact (decodeValue_bool_two Sample.driver tt tt (Some (word 31 [x02]))
           (Sample.info None) (word 31 [x02]) permissive eq_refl eq_refl).
Defined.

Lemma decodeValue_string_bytes_witness :
  run Sample.driver tt
    (decodeValue Types.string_ (Some [x41; xff; x42]) (Sample.info None)
       strictMode) =
  (Returned (StringValue Types.string_ [65; 255; 66]%N), tt) /\
  argumentsLimit < Z.of_nat (length longText) /\
  run Sample.driver tt
    (decodeValue Types.string_ (Some longText) (Sample.info None) normal) =
  (Threw RangeError, tt).
Proof.
  assert (Hshort : Z.of_nat (length [x41; xff; x42]) <= argumentsLimit)
    by (change argumentsLimit with 125000; cbn [length]; lia).
  assert (Hlong : argumentsLimit < Z.of_nat (length longText)).
  { change argumentsLimit with 125000. unfold longText.
    rewrite List.repeat_length, Z2Nat.id; lia. }
  split; [| split; [exact Hlong |]].
  - exact (proj2
             (proj1
                (decodeValue_string_bytes Sample.driver tt tt
                   (Some [x41; xff; x42]) (Sample.info None) [x41; xff; x42]
                   strictMode eq_refl)
                Hshort)
             eq_refl).
  - exact (proj2
             (decodeValue_string_bytes Sample.driver tt tt (Some longText)
                (Sample.info None) longText normal eq_refl)
             Hlong).
Defined.

Lemma decodeValue_fixed_point_witness :
  run Sample.driver tt
    (decodeValue (Types.ufixed 128 18) (Some (word 31 [x01]))
       (Sample.info None) normal) =
  (Returned
     (UfixedErrorResult (Types.ufixed 128 18)
        (FixedPointNotYetSupportedError (Sample.hex (word 31 [x01])))), tt).
Proof.
  exact (proj2
           (decodeValue_fixed_point Sample.driver tt tt
              (Some (word 31 [x01])) (Sample.info None) 128 18
              (word 31 [x01]) normal eq_refl)).
Defined.

Lemma decodeValue_enum_one_option_witness :
  run Sample.driver tt
    (decodeValue (Types.enum oneOption) (Some (word 31 [x01]))
       (Sample.info None) normal) =
  (Returned
     (EnumErrorResult oneOption (EnumOutOfRangeError oneOption 1)), tt).
Proof.
  exact (proj2 (proj2
           (decodeValue_enum_one_option Sample.driver tt tt
              (Some (word 31 [x01])) (Sample.info None) oneOption "Only"
              (word 31 [x01]) normal eq_refl eq_refl))).
Defined.

Lemma decodeInternalFunction_cases_witness :
  decodeInternalFunction internalFunction (word 3 [x05]) (word 4 [])
    (Sample.info (Some {[ 5 := Sample.transferEntry ]})) =
  Returned
    (FunctionInternalValue internalFunction
       (FunctionInternalValueInfoKnown tokenType 5 0 "_transfer" tokenType)).
Proof.
  assert (Hdeployed : 5 <> 0) by discriminate.
  exact (proj2
           (proj2 (proj2 (proj2
              (proj2
                 (decodeInternalFunction_cases internalFunction
                    (Sample.info (Some {[ 5 := Sample.transferEntry ]}))
                    (word 3 [x05]) (word 4 []) 5 0 eq_refl eq_refl)
                 {[ 5 := Sample.transferEntry ]} eq_refl)))
              Hdeployed (or_introl eq_refl))
           Sample.transferEntry eq_refl).
Defined.

Lemma decodeInternalFunction_null_pointer_witness :
  decodeInternalFunction internalFunction (word 4 []) (word 4 [])
    (Sample.info (Some {[ 0 := Sample.transferEntry ]})) =
  Returned
    (FunctionInternalValue internalFunction
       (FunctionInternalValueInfoException tokenType 0 0)).
Proof.
  exact (proj1
           (decodeInternalFunction_null_pointer internalFunction
              (Sample.info None) (word 4 []) (word 4 []) eq_refl eq_refl)
           {[ 0 := Sample.transferEntry ]}).
Defined.

(** Against C1 as stated: without a table the pointer of two zero program
    counters decodes to the Unknown value, not to the Exception value. *)
Lemma null_pointer_without_table :
  toBN (word 4 []) = 0 /\
  EvmInfo.internalFunctionsTable (Sample.info None) = None /\
  decodeInternalFunction internalFunction (word 4 []) (word 4 [])
    (Sample.info None) =
  Returned
    (FunctionInternalValue internalFunction
       (FunctionInternalValueInfoUnknown tokenType 0 0)) /\
  decodeInternalFunction internalFunction (word 4 []) (word 4 [])
    (Sample.info None) <>
  Returned
    (FunctionInternalValue internalFunction
       (FunctionInternalValueInfoException tokenType 0 0)).
Proof.
  repeat split; try reflexivity. discriminate.
Qed.

Lemma decodeValue_permissive_witness :
  paddingCheckLooksAtMode (Types.uint 8) = true /\
  run Sample.driver tt
    (decodeValue (Types.uint 8) (Some (word 30 [x01; xff])) (Sample.info None)
       permissive) =
  (Returned (UintValue (Types.uint 8) 255), tt) /\
  isPaddingErrorResult (UintValue (Types.uint 8) 255) = false.
Proof.
  split; [reflexivity |]. split; [reflexivity |].
  exact (proj1
           (decodeValue_permissive Sample.driver tt
              (Some (word 30 [x01; xff])) (Sample.info None))
           (Types.uint 8) eq_refl (UintValue (Types.uint 8) 255) tt eq_refl).
Defined.

(** Against C2 as stated: in permissive mode a bool whose first byte is not
    zero decodes to the padding error of bool. *)
Lemma permissive_bool_padding_error :
  run Sample.driver tt
    (decodeValue Types.bool_ (Some (x01 :: word 31 [])) (Sample.info None)
       permissive) =
  (Returned
     (BoolErrorResult Types.bool_
        (BoolPaddingError (Sample.hex (x01 :: word 31 [])))), tt) /\
  isPaddingErrorResult
    (BoolErrorResult Types.bool_
       (BoolPaddingError (Sample.hex (x01 :: word 31 [])))) = true.
Proof. split; reflexivity. Qed.

Lemma decodeValue_modes_witness :
  1 <= PC_SIZE <= 6 /\
  registryConsistent (Sample.info None) /\
  (exists (result : Result) (s' : unit),
     run Sample.driver tt
       (decodeValue (Types.function Types.external)
          (Some (word 20 [xa9; x05; x9c; xbb] ++ word 8 []))
          (Sample.info None) permissive) =
     (Returned result, s')) /\
  withinArgumentsLimit Sample.driver tt Types.string_ (Some [x41; xff; x42])
    (Sample.info None) /\
  (exists (result : Result) (s' : unit),
     run Sample.driver tt
       (decodeValue Types.string_ (Some [x41; xff; x42]) (Sample.info None)
          normal) =
     (Returned result, s')).
Proof.
  assert (Hsize : 1 <= PC_SIZE <= 6) by (cbn; lia).
  split; [exact Hsize |].
  split; [apply sample_registryConsistent |].
  assert (Hpermissive : permissive <> strictMode) by discriminate.
  assert (Hnormal : normal <> strictMode) by discriminate.
  assert (Hlimit :
    withinArgumentsLimit Sample.driver tt (Types.function Types.external)
      (Some (word 20 [xa9; x05; x9c; xbb] ++ word 8 [])) (Sample.info None))
    by (intros [=]).
  assert (Hfew : fewOptions (Types.function Types.external) (Sample.info None))
    by (intros enumType options [=]).
  assert (Hshort :
    withinArgumentsLimit Sample.driver tt Types.string_
      (Some [x41; xff; x42]) (Sample.info None)).
  { intros _ bytes s' [= <- _]. change argumentsLimit with 125000.
    cbn [length]. lia. }
  assert (Hnone : fewOptions Types.string_ (Sample.info None))
    by (intros enumType options [=]).
  split; [| split; [exact Hshort |]].
  - exact (proj2
             (proj1
                (decodeValue_modes Sample.driver
                   (Types.function Types.external)
                   (Some (word 20 [xa9; x05; x9c; xbb] ++ word 8 []))
                   (Sample.info None) tt)
                permissive Hpermissive)
             Hsize (sample_registryConsistent None) Hlimit Hfew).
  - exact (proj2
             (proj1
                (decodeValue_modes Sample.driver Types.string_
                   (Some [x41; xff; x42]) (Sample.info None) tt)
                normal Hnormal)
             Hsize (sample_registryConsistent None) Hshort Hnone).
Defined.

(** Against C4 as stated: in strict mode an internal function pointer with a
    zero deployed counter and the constructor counter 7 decodes to an error
    result, the Malformed error, and the decoding is not stopped. *)
Lemma strict_returns_malformed_error :
  run Sample.driver tt
    (decodeValue internalFunction (Some (word 27 [x07] ++ word 4 []))
       (Sample.info (Some ∅)) strictMode) =
  (Returned
     (FunctionInternalErrorResult internalFunction
        (MalformedInternalFunctionError tokenType 7)), tt) /\
  isErrorResult
    (FunctionInternalErrorResult internalFunction
       (MalformedInternalFunctionError tokenType 7)) = true.
Proof. split; reflexivity. Qed.

Lemma decodeExternalFunction_outcomes_witness :
  run Sample.driver tt
    (decodeExternalFunction (word 20 []) [xa9; x05; x9c; xbb]
       (Sample.info None)) =
  (Returned
     (FunctionExternalValueInfoKnown
        (ContractValueInfoKnown (Sample.hex (word 20 [])) tokenType)
        "0xa9059cbb" "transfer"), tt) /\
  run Sample.driver tt
    (decodeExternalFunction (word 20 []) [xde; xad; xbe; xef]
       (Sample.info None)) =
  (Returned
     (FunctionExternalValueInfoInvalid
        (ContractValueInfoKnown (Sample.hex (word 20 [])) tokenType)
        "0xdeadbeef"), tt).
Proof.
  split.
  - exact (proj2
             (proj2
                (decodeExternalFunction_outcomes Sample.driver
                   (Sample.info None) (word 20 []) [xa9; x05; x9c; xbb] tt tt
                   (ContractValueInfoKnown (Sample.hex (word 20 [])) tokenType)
                   eq_refl)
                (Sample.hex (word 20 [])) tokenType Sample.token eq_refl
                eq_refl)
             {| AbiEntry.name := "transfer" |} eq_refl).
  - exact (proj1
             (proj2
                (decodeExternalFunction_outcomes Sample.driver
                   (Sample.info None) (word 20 []) [xde; xad; xbe; xef] tt tt
                   (ContractValueInfoKnown (Sample.hex (word 20 [])) tokenType)
                   eq_refl)
                (Sample.hex (word 20 [])) tokenType Sample.token eq_refl
                eq_refl)
             eq_refl).
Defined.

(** ** The enum of three options and the table of the sample *)

Example enum_three_options :
  run Sample.driver tt
    (decodeValue (Types.enum threeOptions) (Some (word 31 [x05]))
       (Sample.info None) normal) =
  (Returned
     (EnumErrorResult threeOptions (EnumOutOfRangeError threeOptions 5)), tt) /\
  run Sample.driver tt
    (decodeValue (Types.enum threeOptions) (Some (word 31 [x01]))
       (Sample.info None) normal) =
  (Returned (EnumValue threeOptions 1 (Some "Green")), tt).
Proof. split; reflexivity. Qed.

Example internal_function_pointers :
  decodeInternalFunction internalFunction (word 3 [x05]) (word 4 [])
    (Sample.info (Some ∅)) =
  Returned
    (FunctionInternalErrorResult internalFunction
       (NoSuchInternalFunctionError tokenType 5 0)) /\
  decodeInternalFunction internalFunction (word 4 []) (word 3 [x07])
    (Sample.info (Some ∅)) =
  Returned
    (FunctionInternalErrorResult internalFunction
       (MalformedInternalFunctionError tokenType 7)).
Proof. split; reflexivity. Qed.

Example read_outside_the_state :
  run Sample.driver tt
    (decodeValue Types.bool_ None (Sample.info None) normal) =
  (Returned (GenericErrorResult Types.bool_ (Some "ReadErrorStack")), tt) /\
  run Sample.driver tt
    (decodeValue Types.bool_ None (Sample.info None) strictMode) =
  (Threw StopDecodingError, tt).
Proof. split; reflexivity. Qed.

(** ** The further properties at concrete words *)

Lemma checkPaddingLeft_numeric_witness :
  toBN (word 31 [xff]) < 256 ^ 1 /\
  checkPaddingLeft (word 31 [xff]) 1 = true.
Proof.
  assert (Hone : 1 <= 1) by lia.
  assert (Hfits : toBN (word 31 [xff]) < 256 ^ 1) by reflexivity.
  split; [exact Hfits |].
  exact (proj2 (proj1 (checkPaddingLeft_numeric (word 31 [xff]) 1 Hone)) Hfits).
Defined.

Lemma decodeValue_uint_checked_witness :
  run Sample.driver tt
    (decodeValue (Types.uint 16) (Some (word 30 [x01; xff]))
       (Sample.info None) normal) =
  (Returned (UintValue (Types.uint 16) 511), tt).
Proof.
  assert (Hwidth : 1 <= 16 ÷ 8) by (change (16 ÷ 8) with 2; lia).
  assert (Hmode : normal <> permissive) by discriminate.
  exact (decodeValue_uint_checked Sample.driver tt tt
           (Some (word 30 [x01; xff])) (Sample.info None) 16
           (word 30 [x01; xff]) normal eq_refl Hwidth Hmode).
Defined.

Lemma decodeValue_uint_permissive_witness :
  run Sample.driver tt
    (decodeValue (Types.uint 8) (Some (word 30 [x01; xff]))
       (Sample.info None) permissive) =
  (Returned (UintValue (Types.uint 8) (511 mod 256)), tt).
Proof.
  assert (Hwidth : 1 <= 8 ÷ 8) by (change (8 ÷ 8) with 1; lia).
  exact (decodeValue_uint_permissive Sample.driver tt tt
           (Some (word 30 [x01; xff])) (Sample.info None) 8
           (word 30 [x01; xff]) eq_refl Hwidth).
Defined.

Lemma decodeValue_uint_widening_witness :
  run Sample.driver tt
    (decodeValue (Types.uint 16) (Some (word 31 [xff])) (Sample.info None)
       strictMode) =
  (Returned (UintValue (Types.uint 16) 255), tt).
Proof.
  assert (Hwidths : 1 <= 8 ÷ 8 <= 16 ÷ 8)
    by (change (8 ÷ 8) with 1; change (16 ÷ 8) with 2; lia).
  assert (Hmode : strictMode <> permissive) by discriminate.
  exact (decodeValue_uint_widening Sample.driver tt tt
           (Some (word 31 [xff])) (Sample.info None) 8 16 (word 31 [xff])
           strictMode 255 tt eq_refl Hwidths Hmode eq_refl).
Defined.

Lemma decodeValue_bool_numeric_witness :
  run Sample.driver tt
    (decodeValue Types.bool_ (Some (word 30 [x01; x00])) (Sample.info None)
       normal) =
  (Returned
     (BoolErrorResult Types.bool_
        (BoolPaddingError (Sample.hex (word 30 [x01; x00])))), tt).
Proof.
  exact (decodeValue_bool_numeric Sample.driver tt tt
           (Some (word 30 [x01; x00])) (Sample.info None)
           (word 30 [x01; x00]) normal eq_refl).
Defined.


Lemma decodeValue_enum_no_options_witness :
  run Sample.driver tt
    (decodeValue (Types.enum noOptions) (Some (word 31 [x05]))
       (Sample.info None) normal) =
  (Returned
     (EnumErrorResult noOptions
        (EnumPaddingError noOptions (Sample.hex (word 31 [x05])))), tt).
Proof.
  exact (decodeValue_enum_no_options Sample.driver tt tt
           (Some (word 31 [x05])) (Sample.info None) noOptions
           (word 31 [x05]) normal eq_refl eq_refl).
Defined.

Lemma decodeValue_requests_witness :
  requests Sample.driver tt
    (decodeValue (Types.uint 8) (Some (word 31 [xff])) (Sample.info None)
       normal) =
  requests Sample.driver tt
    (read (Some (word 31 [xff])) (EvmInfo.state (Sample.info None))).
Proof.
  exact (proj1
           (decodeValue_requests Sample.driver (Some (word 31 [xff]))
              (Sample.info None) (Types.uint 8) normal tt)
           eq_refl).
Defined.

Lemma decodeValue_internal_function_counters_witness :
  exists deployedPcBytes constructorPcBytes : list byte,
    toBN deployedPcBytes =
    toBN (word 27 [x07; x00; x00; x00; x05]) mod 256 ^ 4 /\
    toBN constructorPcBytes =
    toBN (word 27 [x07; x00; x00; x00; x05]) / 256 ^ 4 /\
    run Sample.driver tt
      (decodeValue internalFunction
         (Some (word 27 [x07; x00; x00; x00; x05])) (Sample.info (Some ∅))
         normal) =
    (decodeInternalFunction internalFunction deployedPcBytes
       constructorPcBytes (Sample.info (Some ∅)), tt).
Proof.
  assert (Hsize : 1 <= PC_SIZE) by (change PC_SIZE with 4; lia).
  exact (decodeValue_internal_function_counters Sample.driver tt tt
           (Some (word 27 [x07; x00; x00; x00; x05])) (Sample.info (Some ∅))
           (word 27 [x07; x00; x00; x00; x05]) normal eq_refl Hsize eq_refl).
Defined.


Lemma strict_result_in_every_mode_witness :
  run Sample.driver tt
    (decodeValue (Types.uint 8) (Some (word 31 [xff])) (Sample.info None)
       normal) =
  (Returned (UintValue (Types.uint 8) 255), tt) /\
  run Sample.driver tt
    (decodeValue (Types.uint 8) (Some (word 31 [xff])) (Sample.info None)
       permissive) =
  (Returned (UintValue (Types.uint 8) 255), tt).
Proof.
  exact (strict_result_in_every_mode Sample.driver tt (Types.uint 8)
           (Some (word 31 [xff])) (Sample.info None)
           (UintValue (Types.uint 8) 255) tt eq_refl).
Defined.
